(** * The fee ledger of the college fee management application

    A shallow embedding of the ledger part of [src/main.py]: the two SQLite
    tables, the database helpers that read and write them, and the form
    handlers of [MainWindow] that call the helpers.

    Modelling choices.
    - The database file is an explicit value [DB] threaded through every
      helper; each helper opens the file, runs one statement and commits,
      so a helper is a function from the database to a result and the
      database after the call.
    - [students] has [student_id] as primary key: a finite map from the id
      to the row.  [payments] is the list of its rows in insertion order,
      together with the counter SQLite keeps for an AUTOINCREMENT key.
    - A Python float is a number or NaN ([Py.float]).  SQLite stores NaN as
      NULL, so a REAL column holds a number or NULL, and NULL is refused
      where the column is NOT NULL.  Numbers are exact, counted in the
      smallest currency unit: the rounding of binary floating point and the
      infinities are not modelled.
    - Texts are Python strings, given by their UTF-8 bytes; [Py.strip]
      removes the white space of [str.strip], Unicode white space included.
      Paths are joined as [posixpath.join] does.
    - What the handlers take from outside the repository is a parameter:
      Python's [float()], [os.path.splitext], the outcome of [shutil.copy2]
      and the clock.  Widget layout, the drawing calls of the PDF, a failure
      of the file system while the PDF is written, and opening the PDF are
      not part of the ledger and are left out, and so is a failure of the
      storage (a full disk, a locked file) other than the rowids running
      out. *)

From stdpp Require Import gmap strings list sorting pretty.
From Stdlib Require Import ZArith Lia.

Local Open Scope Z_scope.

(** ** Python values used by the handlers *)

Module Py.

(** The white space of [str.isspace], by the UTF-8 bytes of the character.
    One byte: U+0009 to U+000D, U+001C to U+001F and the blank. *)
Definition isspace (a : Ascii.ascii) : bool :=
  let n := Ascii.nat_of_ascii a in
  ((9 <=? n)%nat && (n <=? 13)%nat) || ((28 <=? n)%nat && (n <=? 32)%nat).

(** Two bytes: U+0085 (C2 85) and U+00A0 (C2 A0). *)
Definition isspace2 (a1 a2 : Ascii.ascii) : bool :=
  let n1 := Ascii.N_of_ascii a1 in
  let n2 := Ascii.N_of_ascii a2 in
  ((n1 =? 194) && ((n2 =? 133) || (n2 =? 160)))%N.

(** Three bytes: U+1680 (E1 9A 80), U+2000 to U+200A (E2 80 80 to E2 80 8A),
    U+2028, U+2029, U+202F (E2 80 A8, A9, AF), U+205F (E2 81 9F) and
    U+3000 (E3 80 80). *)
Definition isspace3 (a1 a2 a3 : Ascii.ascii) : bool :=
  let n1 := Ascii.N_of_ascii a1 in
  let n2 := Ascii.N_of_ascii a2 in
  let n3 := Ascii.N_of_ascii a3 in
  (((n1 =? 225) && (n2 =? 154) && (n3 =? 128))
   || ((n1 =? 226) && (n2 =? 128)
       && (((128 <=? n3) && (n3 <=? 138)) || (n3 =? 168) || (n3 =? 169) || (n3 =? 175)))
   || ((n1 =? 226) && (n2 =? 129) && (n3 =? 159))
   || ((n1 =? 227) && (n2 =? 128) && (n3 =? 128)))%N.

(** Leading white space removed.  With [backwards] the text is read from its
    end, so the bytes of a character come last byte first. *)
Fixpoint lstrip_from (backwards : bool) (s : string) : string :=
  match s with
  | EmptyString => EmptyString
  | String a1 s1 =>
      if isspace a1 then lstrip_from backwards s1
      else
        match s1 with
        | EmptyString => s
        | String a2 s2 =>
            if (if backwards then isspace2 a2 a1 else isspace2 a1 a2)
            then lstrip_from backwards s2
            else
              match s2 with
              | EmptyString => s
              | String a3 s3 =>
                  if (if backwards then isspace3 a3 a2 a1 else isspace3 a1 a2 a3)
                  then lstrip_from backwards s3
                  else s
              end
        end
  end.

Definition lstrip (s : string) : string := lstrip_from false s.

Definition rstrip (s : string) : string :=
  String.rev (lstrip_from true (String.rev s)).

(** [s.strip()] *)
Definition strip (s : string) : string := rstrip (lstrip s).

(** Truth value of a string: only the empty string is false. *)
Definition truthy (s : string) : bool := negb (String.eqb s "").

(** [posixpath.join(a, b)]: [b] alone when it starts with a slash. *)
Definition starts_with_slash (s : string) : bool :=
  match s with
  | EmptyString => false
  | String c _ => Ascii.eqb c (Ascii.ascii_of_nat 47)
  end.

Definition path_join (a b : string) : string :=
  if starts_with_slash b then b
  else if negb (truthy a) || starts_with_slash (String.rev a) then a +:+ b
  else a +:+ "/" +:+ b.

(** A float: a number or NaN. *)
Inductive float :=
| Num (z : Z)
| NaN.

(** [x > y]; false when either is NaN. *)
Definition gt (x y : float) : bool :=
  match x, y with
  | Num a, Num b => bool_decide (a > b)
  | _, _ => false
  end.

(** [v or 0.0] for a number [v] that may be [None]: [None] and zero are
    false, so both give [0.0]. *)
Definition or_zero (v : option Z) : Z :=
  match v with
  | None => 0
  | Some x => if decide (x = 0) then 0 else x
  end.

(** Exceptions that leave a helper or a handler. *)
Inductive Error := TypeError | OperationalError | IntegrityError.

Inductive result (A : Type) :=
| Return (a : A)
| Raise (e : Error).
Arguments Return {A} a.
Arguments Raise {A} e.

End Py.

(** ** The tables *)

Module Student.
(** A row of [students(student_id PK, name, class, total_fee, photo_path)];
    [total_fee] is REAL NOT NULL. *)
Record t := mk {
  student_id : string;
  name : string;
  class : string;
  total_fee : Z;
  photo_path : option string
}.
End Student.

Module Payment.
(** A row of [payments(receipt_no PK AUTOINCREMENT, student_id,
    amount_paid, payment_date, mode_of_payment)]; [amount_paid] is REAL and
    may be NULL. *)
Record t := mk {
  receipt_no : Z;
  student_id : string;
  amount_paid : option Z;
  payment_date : string;
  mode_of_payment : string
}.
End Payment.

(** The database file.  [sqlite_sequence] is the largest [receipt_no] SQLite
    has handed out for [payments] (0 when none was). *)
Record DB := mkDB {
  students : gmap string Student.t;
  payments : list Payment.t;
  sqlite_sequence : Z
}.

(** A file that did not exist before [sqlite3.connect]. *)
Definition new_db : DB := mkDB ∅ [] 0.

(** [init_db]: both statements are CREATE TABLE IF NOT EXISTS, so a database
    that has the tables is left as it is. *)
Definition init_db (file : option DB) : DB :=
  match file with
  | None => new_db
  | Some db => db
  end.

(** ** Database helpers *)

(** A float bound to a parameter of a statement: NaN becomes NULL. *)
Definition sql_real (x : Py.float) : option Z :=
  match x with
  | Py.Num z => Some z
  | Py.NaN => None
  end.

(** INSERT OR REPLACE INTO students: the row with this primary key, if any,
    is deleted and the new row inserted.  A NULL [total_fee] violates NOT
    NULL and the statement fails with nothing written.  Foreign keys are
    not enforced (no PRAGMA), and [payments] is not touched. *)
Definition add_student_db (student_id name student_class : string)
    (total_fee : Py.float) (photo_path : option string) (db : DB)
    : Py.result unit * DB :=
  match sql_real total_fee with
  | None => (Py.Raise Py.IntegrityError, db)
  | Some fee =>
      (Py.Return tt,
       mkDB (<[student_id := Student.mk student_id name student_class fee photo_path]>
               (students db))
            (payments db) (sqlite_sequence db))
  end.

(** SELECT ... FROM students WHERE student_id=?; fetchone. *)
Definition get_student (student_id : string) (db : DB) : option Student.t :=
  students db !! student_id.

(** The largest signed 64-bit rowid. *)
Definition MAX_ROWID : Z := 2 ^ 63 - 1.

Definition max_rowid (rows : list Payment.t) : Z :=
  foldr (λ p m, Z.max (Payment.receipt_no p) m) 0 rows.

(** The largest rowid that [payments] holds or ever held. *)
Definition last_rowid (db : DB) : Z :=
  Z.max (sqlite_sequence db) (max_rowid (payments db)).

(** INSERT INTO payments (student_id, amount_paid, payment_date,
    mode_of_payment); the key is not given, so AUTOINCREMENT picks one more
    than the largest rowid the table ever held, and the INSERT fails with
    SQLITE_FULL once the largest rowid has been used.  Returns
    [c.lastrowid].  Neither the student id nor the amount is looked at; an
    amount that is NaN is stored as NULL. *)
Definition add_payment_db (student_id : string) (amount_paid : Py.float)
    (payment_date mode : string) (db : DB) : Py.result Z * DB :=
  if decide (MAX_ROWID <= last_rowid db) then (Py.Raise Py.OperationalError, db)
  else
    let receipt_no := last_rowid db + 1 in
    (Py.Return receipt_no,
     mkDB (students db)
          (payments db ++
           [Payment.mk receipt_no student_id (sql_real amount_paid) payment_date mode])
          receipt_no).

(** WHERE student_id=? *)
Definition where_student_id (student_id : string) (rows : list Payment.t) : list Payment.t :=
  filter (λ p, Payment.student_id p = student_id) rows.

(** ORDER BY receipt_no DESC *)
Definition receipt_no_desc (p q : Payment.t) : Prop :=
  Payment.receipt_no q <= Payment.receipt_no p.

#[global] Instance receipt_no_desc_dec : RelDecision receipt_no_desc :=
  λ p q, decide (Payment.receipt_no q <= Payment.receipt_no p).

Definition order_by_receipt_no_desc (rows : list Payment.t) : list Payment.t :=
  merge_sort receipt_no_desc rows.

(** SELECT ... FROM payments WHERE student_id=? ORDER BY receipt_no DESC
    LIMIT 1; fetchone. *)
Definition get_last_payment (student_id : string) (db : DB) : option Payment.t :=
  head (order_by_receipt_no_desc (where_student_id student_id (payments db))).

(** SUM(x): NULL values are skipped; NULL when no value is left, the sum
    otherwise. *)
Definition sql_sum (xs : list (option Z)) : option Z :=
  match omap id xs with
  | [] => None
  | ys => Some (foldr Z.add 0 ys)
  end.

(** SELECT SUM(amount_paid) FROM payments WHERE student_id=?;
    [return row[0] or 0.0]. *)
Definition get_total_paid (student_id : string) (db : DB) : Z :=
  Py.or_zero (sql_sum (Payment.amount_paid <$> where_student_id student_id (payments db))).

(** [get_total_due]: [None] when the student is not found. *)
Definition get_total_due (student_id : string) (db : DB) : option Z :=
  let total_paid := Py.or_zero (Some (get_total_paid student_id db)) in
  match students db !! student_id with
  | None => None
  | Some row =>
      let total_fee := Student.total_fee row in
      let total_due := total_fee - total_paid in
      Some total_due
  end.

(** ** The receipt

    [generate_receipt_pdf] draws one page; its content is kept, the drawing
    is not.  The receipt number and the amount it prints are those of the
    [payment] tuple, which the caller reads back with [get_last_payment]:
    unpacking [payment] assigns [receipt_no] anew, so the argument of that
    name is not printed.  The amount is formatted with two decimals, which
    raises a TypeError when the amount read back is [None]. *)
Record Receipt := mkReceipt {
  receipt_student : Student.t;
  receipt_payment : Payment.t;
  receipt_total_paid : Z;
  receipt_remaining : Z
}.

Definition generate_receipt_pdf (student_id : string) (receipt_no : Z)
    (student : Student.t) (payment : Payment.t) (db : DB) : Py.result Receipt :=
  let total_fee := Student.total_fee student in
  let total_paid := get_total_paid student_id db in
  let remaining := total_fee - total_paid in
  match Payment.amount_paid payment with
  | None => Py.Raise Py.TypeError
  | Some amount_paid => Py.Return (mkReceipt student payment total_paid remaining)
  end.

(** ** The form handlers of [MainWindow] *)

Module MainWindow.

(** The attributes of the window that the handlers read or write: the
    texts of the line edits, the chosen photo, the chosen mode of payment
    and the student fetched for payment. *)
Record t := mk {
  input_sid : string;
  input_name : string;
  input_class : string;
  input_total_fee : string;
  photo_path : option string;
  p_sid : string;
  p_amount : string;
  p_mode : string;
  current_student : option Student.t
}.

(** The message boxes a handler shows. *)
Inductive Dialog :=
| WarnRequired                      (* "Student ID, Name and Total Fee are required." *)
| WarnNumericFee                    (* "Provide a valid numeric Total Fee." *)
| WarnPhotoError                    (* "Could not copy photo: ..." *)
| InfoSaved (name sid : string)     (* "Student {name} ({sid}) saved." *)
| WarnEnterStudentId                (* "Enter Student ID." *)
| WarnNotFound                      (* "Student not found in database." *)
| WarnNoStudent                     (* "Fetch the student first." *)
| WarnEnterAmount                   (* "Enter payment amount." *)
| WarnNumericAmount                 (* "Enter numeric amount." *)
| WarnInvalidPayment (remaining_fee : Z)
                                    (* "Payment exceeds remaining fee of ..." *)
| InfoSuccess (receipt : Receipt).  (* "Payment recorded. Receipt: ..." *)

(** A handler returns after showing its boxes, or an exception leaves it
    after the boxes shown so far. *)
Inductive Outcome :=
| Shown (boxes : list Dialog)
| Raised (boxes : list Dialog) (e : Py.Error).

Definition PHOTO_DIR : string := "student_photos".

Section Handlers.

(** [float(text)]: the float, or [None] when Python raises. *)
Variable float : string → option Py.float.
(** [os.path.splitext(path)[1]] *)
Variable splitext : string → string.
(** [shutil.copy2(src, dst)]: [false] when it raises. *)
Variable copy2 : string → string → bool.

Definition save_student (w : t) (db : DB) : Outcome * t * DB :=
  let sid := Py.strip (input_sid w) in
  let name := Py.strip (input_name w) in
  let sclass := Py.strip (input_class w) in
  let total_fee_text := Py.strip (input_total_fee w) in
  if negb (Py.truthy sid) || negb (Py.truthy name) || negb (Py.truthy total_fee_text)
  then (Shown [WarnRequired], w, db)
  else
    match float total_fee_text with
    | None => (Shown [WarnNumericFee], w, db)
    | Some total_fee =>
        let '(photo_dest, boxes) :=
          match photo_path w with
          | None => (None, [])
          | Some path =>
              if Py.truthy path then
                let ext := splitext path in
                let dest := Py.path_join PHOTO_DIR (sid +:+ ext) in
                if copy2 path dest then (Some dest, []) else (None, [WarnPhotoError])
              else (None, [])
          end in
        match add_student_db sid name sclass total_fee photo_dest db with
        | (Py.Raise e, db') => (Raised boxes e, w, db')
        | (Py.Return _, db') =>
            (Shown (boxes ++ [InfoSaved name sid]),
             mk "" "" "" "" None (p_sid w) (p_amount w) (p_mode w) (current_student w),
             db')
        end
    end.

Definition fetch_student_for_payment (w : t) (db : DB) : Outcome * t * DB :=
  let sid := Py.strip (p_sid w) in
  if negb (Py.truthy sid) then (Shown [WarnEnterStudentId], w, db)
  else
    match get_student sid db with
    | None => (Shown [WarnNotFound], w, db)
    | Some student =>
        (Shown [],
         mk (input_sid w) (input_name w) (input_class w) (input_total_fee w)
            (photo_path w) (p_sid w) (p_amount w) (p_mode w) (Some student),
         db)
    end.

(** [now] is the text of [datetime.now()] in the format of [payment_date]. *)
Definition record_payment_and_receipt (now : string) (w : t) (db : DB)
    : Outcome * t * DB :=
  match current_student w with
  | None => (Shown [WarnNoStudent], w, db)
  | Some student =>
      let sid := Student.student_id student in
      let amt_text := Py.strip (p_amount w) in
      if negb (Py.truthy amt_text) then (Shown [WarnEnterAmount], w, db)
      else
        match float amt_text with
        | None => (Shown [WarnNumericAmount], w, db)
        | Some amt =>
            match get_total_due sid db with
            | None => (Raised [] Py.TypeError, w, db)        (* amt > None *)
            | Some remaining_fee =>
                if Py.gt amt (Py.Num remaining_fee)
                then (Shown [WarnInvalidPayment remaining_fee], w, db)
                else
                  let mode := p_mode w in
                  let payment_date := now in
                  match add_payment_db sid amt payment_date mode db with
                  | (Py.Raise e, db') => (Raised [] e, w, db')
                  | (Py.Return receipt_no, db') =>
                      match get_last_payment sid db' with
                      | None => (Raised [] Py.TypeError, w, db')  (* unpacking None *)
                      | Some payment =>
                          match generate_receipt_pdf sid receipt_no student payment db' with
                          | Py.Raise e => (Raised [] e, w, db')
                          | Py.Return pdf =>
                              (Shown [InfoSuccess pdf],
                               mk (input_sid w) (input_name w) (input_class w)
                                  (input_total_fee w) (photo_path w) "" "" (p_mode w) None,
                               db')
                          end
                      end
                  end
            end
        end
  end.

End Handlers.

(** [browse_photo]; [path] is what the file dialog returns, the empty text
    when it is cancelled.  ([photo_path_temp] is written and never read.) *)
Definition browse_photo (path : string) (w : t) : t :=
  if Py.truthy path
  then mk (input_sid w) (input_name w) (input_class w) (input_total_fee w)
          (Some path) (p_sid w) (p_amount w) (p_mode w) (current_student w)
  else w.

(** What [search_student] leaves on the view tab. *)
Inductive SearchResult :=
| SearchWarnInput                     (* "Enter Student ID to search." *)
| SearchNotFound                      (* "No student found." *)
| SearchShown (student : Student.t) (total_paid remain : Z) (rows : list Payment.t).

(** [search_student]; [search_sid] is the text of the search line edit.
    The info text shows the student row, the total paid and the remaining
    amount; the table is filled with the rows of SELECT ... FROM payments
    WHERE student_id=? ORDER BY receipt_no DESC.  After the row is unpacked
    [sid] is the id column of the row. *)
Definition search_student (search_sid : string) (db : DB) : SearchResult :=
  let sid := Py.strip search_sid in
  if negb (Py.truthy sid) then SearchWarnInput
  else
    match get_student sid db with
    | None => SearchNotFound
    | Some student =>
        let sid := Student.student_id student in
        let total_fee := Student.total_fee student in
        let total_paid := get_total_paid sid db in
        let remain := total_fee - total_paid in
        let rows := order_by_receipt_no_desc (where_student_id sid (payments db)) in
        SearchShown student total_paid remain rows
    end.

(** The window as [__init__] leaves it: empty line edits, no photo, the
    first mode of the combo box, no student fetched. *)
Definition initial : t := mk "" "" "" "" None "" "" "Cash" None.

End MainWindow.

(** The file that [generate_receipt_pdf] writes:
    [os.path.join("receipts", f"Receipt_{sid}_{receipt_no}.pdf")], where
    [sid] is the id of the [student] tuple and [receipt_no] the number of
    the [payment] tuple. *)
Definition pdf_filename (student : Student.t) (payment : Payment.t) : string :=
  "receipts" +:+ "/" +:+ "Receipt_" +:+ Student.student_id student +:+ "_"
    +:+ pretty (Payment.receipt_no payment) +:+ ".pdf".

(** ** Sessions

    The buttons are connected to the handlers, and between two clicks the
    user changes the texts of the line edits and the mode.  Every text is
    allowed here, also those the fee validator or the combo box would not
    let through, so what holds for all sessions holds for the real ones. *)

Module Session.

Inductive Event :=
| EditStudentTab (sid name cls fee : string)
| EditPaymentTab (sid amount mode : string)
| BrowsePhoto (path : string)
| ClickSave
| ClickFetch
| ClickPay (now : string).

Section Run.

Variable float : string → option Py.float.
Variable splitext : string → string.
Variable copy2 : string → string → bool.

Definition step (e : Event) (w : MainWindow.t) (db : DB)
    : MainWindow.Outcome * MainWindow.t * DB :=
  match e with
  | EditStudentTab sid name cls fee =>
      (MainWindow.Shown [],
       MainWindow.mk sid name cls fee (MainWindow.photo_path w) (MainWindow.p_sid w)
         (MainWindow.p_amount w) (MainWindow.p_mode w) (MainWindow.current_student w),
       db)
  | EditPaymentTab sid amount mode =>
      (MainWindow.Shown [],
       MainWindow.mk (MainWindow.input_sid w) (MainWindow.input_name w)
         (MainWindow.input_class w) (MainWindow.input_total_fee w)
         (MainWindow.photo_path w) sid amount mode (MainWindow.current_student w),
       db)
  | BrowsePhoto path => (MainWindow.Shown [], MainWindow.browse_photo path w, db)
  | ClickSave => MainWindow.save_student float splitext copy2 w db
  | ClickFetch => MainWindow.fetch_student_for_payment w db
  | ClickPay now => MainWindow.record_payment_and_receipt float now w db
  end.

(** The events one after the other; the outcomes are in event order.  What
    PyQt does with an exception that leaves a handler is not modelled: the
    run goes on with the window and the database as the handler left them. *)
Fixpoint run (events : list Event) (w : MainWindow.t) (db : DB)
    : list MainWindow.Outcome * MainWindow.t * DB :=
  match events with
  | [] => ([], w, db)
  | e :: events' =>
      let '(o, w1, db1) := step e w db in
      let '(os, w2, db2) := run events' w1 db1 in
      (o :: os, w2, db2)
  end.

End Run.

End Session.

(** A text of white space only (the empty text included). *)
Fixpoint blank (s : string) : bool :=
  match s with
  | EmptyString => true
  | String a1 s1 =>
      if Py.isspace a1 then blank s1
      else
        match s1 with
        | EmptyString => false
        | String a2 s2 =>
            if Py.isspace2 a1 a2 then blank s2
            else
              match s2 with
              | EmptyString => false
              | String a3 s3 => Py.isspace3 a1 a2 a3 && blank s3
              end
        end
  end.

(** Every row of [students] is stored under its own id, as a primary key
    column is. *)
Definition students_keyed (db : DB) : Prop :=
  ∀ sid row, students db !! sid = Some row → Student.student_id row = sid.

(** The student fetched for payment, if any, has a row in [students]. *)
Definition fetched_known (w : MainWindow.t) (db : DB) : Prop :=
  ∀ student, MainWindow.current_student w = Some student →
             is_Some (students db !! Student.student_id student).

(** ** Sequences of payments *)

(** The arguments of one call of [add_payment_db]. *)
Record PaymentCall := mkCall {
  call_student_id : string;
  call_amount : Py.float;
  call_date : string;
  call_mode : string
}.

(** The calls made one after the other, each on the database the previous
    one left; the results are in call order. *)
Fixpoint add_payments (calls : list PaymentCall) (db : DB) : list (Py.result Z) * DB :=
  match calls with
  | [] => ([], db)
  | c :: calls' =>
      let '(r, db1) :=
        add_payment_db (call_student_id c) (call_amount c) (call_date c) (call_mode c) db in
      let '(rs, db2) := add_payments calls' db1 in
      (r :: rs, db2)
  end.

(** The receipt numbers that the calls returned. *)
Definition assigned (rs : list (Py.result Z)) : list Z :=
  omap (λ r, match r with Py.Return n => Some n | Py.Raise _ => None end) rs.

(** ** A worked ledger

    The data of the examples below.  Amounts are in hundredths of a rupee. *)

Module Scenario.

Fixpoint digits_value (s : string) (acc : Z) : option Z :=
  match s with
  | EmptyString => Some acc
  | String a s' =>
      match Ascii.is_nat a with
      | Some d => digits_value s' (10 * acc + Z.of_nat d)
      | None => None
      end
  end.

(** [float()] on the texts used in the examples: the text nan, and decimal
    digits with an optional minus sign in front, read as whole rupees.
    Python accepts more texts than these; none of them is used below. *)
Definition float_of_digits (text : string) : option Py.float :=
  if String.eqb text "nan" then Some Py.NaN
  else
    match text with
    | EmptyString => None
    | String a s =>
        if Ascii.eqb a (Ascii.ascii_of_nat 45) then       (* a minus sign *)
          if String.eqb s "" then None
          else (λ n, Py.Num (- (100 * n))) <$> digits_value s 0
        else (λ n, Py.Num (100 * n)) <$> digits_value text 0
    end.

Definition now1 : string := "2024-04-01 10:00:00".
Definition now2 : string := "2024-04-02 11:30:00".

(** Student S1 with a total fee of 1000.00, and S0 who owes nothing. *)
Definition s1 : Student.t := Student.mk "S1" "First Student" "BSc" 100000 None.
Definition s0 : Student.t := Student.mk "S0" "Free Student" "BSc" 0 None.

Definition db_start : DB :=
  (add_student_db "S0" "Free Student" "BSc" (Py.Num 0) None
     (add_student_db "S1" "First Student" "BSc" (Py.Num 100000) None new_db).2).2.

(** The payment tab with a student fetched and an amount typed. *)
Definition paying (student : Student.t) (amount mode : string) : MainWindow.t :=
  MainWindow.mk "" "" "" "" None (Student.student_id student) amount mode (Some student).

(** The payment tab after a payment was recorded. *)
Definition paid (mode : string) : MainWindow.t :=
  MainWindow.mk "" "" "" "" None "" "" mode None.

(** The student tab filled in. *)
Definition entering (sid name cls fee : string) : MainWindow.t :=
  MainWindow.mk sid name cls fee None "" "" "Cash" None.

(** S1 has paid 400.00 in cash. *)
Definition db_400 : DB :=
  (add_payment_db "S1" (Py.Num 40000) now1 "Cash" db_start).2.

(** S1 has then paid the remaining 600.00 by UPI. *)
Definition db_1000 : DB :=
  (add_payment_db "S1" (Py.Num 60000) now2 "UPI" db_400).2.

(** No photo is chosen in the examples, so nothing is asked of these. *)
Definition no_ext (path : string) : string := "".
Definition copy_ok (src dst : string) : bool := true.

(** Three payments, for S1, for S0 and for S1 again. *)
Definition three_calls : list PaymentCall :=
  [mkCall "S1" (Py.Num 40000) now1 "Cash"; mkCall "S0" (Py.Num 0) now1 "Cheque";
   mkCall "S1" (Py.Num 60000) now2 "UPI"].

(** A table whose largest rowid has been handed out. *)
Definition db_full : DB := mkDB (students db_start) [] MAX_ROWID.

(** A payment was recorded under the id S9, which is not in [students]. *)
Definition db_orphan : DB :=
  (add_payment_db "S9" (Py.Num 2500) now1 "Cash" db_start).2.


End Scenario.

(** ** More of the worked ledger *)

Module Walkthrough.

(** [os.path.splitext] on the one photo path used below. *)
Definition photo_ext (path : string) : string := ".png".


(** The student tab filled in for S2, with blanks around the id, no class
    and a photo chosen; the payment tab holds the id S2. *)
Definition photo_form : MainWindow.t :=
  MainWindow.mk " S2 " "Second Student" "" "1500" (Some "/home/clerk/s2.png")
    "S2" "" "Cash" None.

(** A session on a new database: S3 is saved with a fee of 200.00 and pays
    150.00; a second click finds no student fetched; after fetching again,
    60.00 is more than the 50.00 left. *)
Definition clicks : list Session.Event :=
  [Session.EditStudentTab "S3" "Third Student" "BA" "200"; Session.ClickSave;
   Session.EditPaymentTab "S3" "150" "Cash"; Session.ClickFetch;
   Session.ClickPay Scenario.now1;
   Session.EditPaymentTab "S3" "60" "UPI"; Session.ClickPay Scenario.now2;
   Session.ClickFetch; Session.ClickPay Scenario.now2].

(** The start of a session in which the amount typed is the text nan: S1
    is fetched, and the button to record the payment comes next. *)
Definition nan_clicks : list Session.Event :=
  [Session.EditPaymentTab "S1" "nan" "Cash"; Session.ClickFetch].

(** The start of a session in which the fee typed is the text nan. *)
Definition nan_fee_clicks : list Session.Event :=
  [Session.EditStudentTab "S4" "Fourth Student" "BA" "nan"].

(** U+00A0, the no-break space, in UTF-8. *)
Definition nbsp : string :=
  String (Ascii.ascii_of_nat 194) (String (Ascii.ascii_of_nat 160) "").

(** U+2003, the em space, in UTF-8. *)
Definition em_space : string :=
  String (Ascii.ascii_of_nat 226)
    (String (Ascii.ascii_of_nat 128) (String (Ascii.ascii_of_nat 131) "")).


End Walkthrough.

(** * Properties *)

(** ** The balance *)

Lemma or_zero_Some (x : Z) : Py.or_zero (Some x) = x.
Proof. unfold Py.or_zero. case_decide; congruence. Qed.

Lemma get_total_due_found sid db row :
  students db !! sid = Some row →
  get_total_due sid db = Some (Student.total_fee row - get_total_paid sid db).
Proof. intros Hrow. unfold get_total_due. by rewrite Hrow, or_zero_Some. Qed.

Lemma add_payment_db_students sid amt date mode db :
  students (add_payment_db sid amt date mode db).2 = students db.
Proof. unfold add_payment_db. by case_decide. Qed.

Lemma add_payments_students calls db :
  students (add_payments calls db).2 = students db.
Proof.
  revert db. induction calls as [|c calls IH]; intros db; simpl; [done|].
  destruct (add_payment_db _ _ _ _ db) as [r db1] eqn:E1.
  specialize (IH db1). destruct (add_payments calls db1) as [rs db2]. simpl in *.
  rewrite IH. change db1 with (r, db1).2. rewrite <- E1.
  apply add_payment_db_students.
Qed.

(** C1. For a student present in the store, after any sequence of recorded
    payments (the empty one included) the due amount is the student's total
    fee minus the total paid. *)
Theorem total_due_is_fee_minus_paid calls db sid row :
  students db !! sid = Some row →
  get_total_due sid (add_payments calls db).2
  = Some (Student.total_fee row - get_total_paid sid (add_payments calls db).2).
Proof.
  intros Hrow. apply get_total_due_found. by rewrite add_payments_students.
Qed.

(** C7. For an id that is not in [students], the due amount is [None],
    whatever rows [payments] holds under that id. *)
Theorem total_due_unknown_student sid db :
  students db !! sid = None → get_total_due sid db = None.
Proof. intros Hnone. unfold get_total_due. by rewrite Hnone. Qed.

(** C8. For an id with no row in [payments], the total paid is the number 0,
    whether or not the id is in [students]. *)
Theorem total_paid_no_payments sid db :
  where_student_id sid (payments db) = [] → get_total_paid sid db = 0.
Proof. intros Hnone. unfold get_total_paid. by rewrite Hnone. Qed.

(** ** Saving a student again *)

(** A fee that is a number is stored. *)
Lemma add_student_db_Num sid name cls fee photo db :
  add_student_db sid name cls (Py.Num fee) photo db
  = (Py.Return tt,
     mkDB (<[sid := Student.mk sid name cls fee photo]> (students db))
          (payments db) (sqlite_sequence db)).
Proof. reflexivity. Qed.

(** C9. Saving a student under an id that is already in [students] puts the
    new name, class, total fee and photo reference in place of the old row:
    the id has the new row and no id is gained or lost.  The payments, of
    that id and of every other, the receipt counter and the rows of the
    other students stay as they were. *)
Theorem add_student_db_replaces sid name cls fee photo db :
  is_Some (get_student sid db) →
  let res := add_student_db sid name cls (Py.Num fee) photo db in
  let db' := res.2 in
  res.1 = Py.Return tt
  ∧ get_student sid db' = Some (Student.mk sid name cls fee photo)
  ∧ dom (students db') = dom (students db)
  ∧ (∀ sid', sid' ≠ sid → get_student sid' db' = get_student sid' db)
  ∧ payments db' = payments db
  ∧ sqlite_sequence db' = sqlite_sequence db.
Proof.
  intros Hold res db'. unfold get_student in *. subst db' res.
  rewrite add_student_db_Num. simpl.
  split_and!; [done| | | |done..].
  - apply lookup_insert_eq.
  - rewrite dom_insert_L. apply subseteq_union_1_L, singleton_subseteq_l.
    by apply elem_of_dom.
  - intros sid' Hne. by apply lookup_insert_ne.
Qed.

(** ** Receipt numbers *)

Lemma max_rowid_nonneg rows : 0 <= max_rowid rows.
Proof. induction rows as [|p rows IH]; simpl; lia. Qed.

Lemma max_rowid_ge rows p : p ∈ rows → Payment.receipt_no p <= max_rowid rows.
Proof.
  induction rows as [|q rows IH]; intros Hin.
  - by apply not_elem_of_nil in Hin.
  - apply elem_of_cons in Hin as [->|Hin]; simpl; [lia|].
    specialize (IH Hin). lia.
Qed.

Lemma max_rowid_app rows p :
  max_rowid (rows ++ [p]) = Z.max (max_rowid rows) (Payment.receipt_no p).
Proof.
  induction rows as [|q rows IH]; simpl.
  - pose proof (max_rowid_nonneg []). simpl in *. lia.
  - rewrite IH. lia.
Qed.

Lemma last_rowid_ge db p : p ∈ payments db → Payment.receipt_no p <= last_rowid db.
Proof. intros Hin. apply max_rowid_ge in Hin. unfold last_rowid. lia. Qed.

(** What a call that returns has done. *)
Lemma add_payment_db_Return sid amt date mode db r db' :
  add_payment_db sid amt date mode db = (Py.Return r, db') →
  r = last_rowid db + 1
  ∧ db' = mkDB (students db) (payments db ++ [Payment.mk r sid (sql_real amt) date mode]) r
  ∧ last_rowid db' = r.
Proof.
  unfold add_payment_db. case_decide as Hfull; intros [= <- <-].
  repeat split. unfold last_rowid at 1. simpl. rewrite max_rowid_app. simpl.
  pose proof (max_rowid_nonneg (payments db)). unfold last_rowid. lia.
Qed.

(** A call that raises has done nothing. *)
Lemma add_payment_db_Raise sid amt date mode db e db' :
  add_payment_db sid amt date mode db = (Py.Raise e, db') → db' = db.
Proof. unfold add_payment_db. case_decide; by intros [= <-]. Qed.

(** A call returns unless the rowids are used up. *)
Lemma add_payment_db_returns sid amt date mode db :
  last_rowid db < MAX_ROWID →
  add_payment_db sid amt date mode db
  = (Py.Return (last_rowid db + 1),
     mkDB (students db)
          (payments db ++ [Payment.mk (last_rowid db + 1) sid (sql_real amt) date mode])
          (last_rowid db + 1)).
Proof. intros Hroom. unfold add_payment_db. case_decide; [lia|done]. Qed.

Lemma add_payments_receipts calls db :
  let rs := assigned (add_payments calls db).1 in
  let db' := (add_payments calls db).2 in
  StronglySorted Z.lt rs
  ∧ Forall (λ r, last_rowid db < r) rs
  ∧ ∃ rows, payments db' = payments db ++ rows ∧ Payment.receipt_no <$> rows = rs.
Proof.
  revert db. induction calls as [|c calls IH]; intros db; simpl.
  - repeat split; [constructor..|]. exists []. by rewrite app_nil_r.
  - destruct (add_payment_db _ _ _ _ db) as [r db1] eqn:E1.
    specialize (IH db1). destruct (add_payments calls db1) as [rs db2].
    simpl in *. destruct IH as (Hsorted & Hlast & rows & Hrows & Hnos).
    destruct r as [r|e]; simpl.
    + apply add_payment_db_Return in E1 as (-> & -> & Hnext). simpl in *.
      rewrite Hnext in Hlast. repeat split.
      * by constructor.
      * constructor; [lia|]. eapply Forall_impl; [exact Hlast|]. simpl. lia.
      * eexists (_ :: rows). rewrite Hrows, <- app_assoc. simpl.
        split; [done|]. f_equal. exact Hnos.
    + apply add_payment_db_Raise in E1 as ->. eauto.
Qed.

Lemma StronglySorted_lt_NoDup (l : list Z) : StronglySorted Z.lt l → NoDup l.
Proof.
  induction 1 as [|x l Hsorted IH Hall]; constructor; [|done].
  intros Hin. rewrite Forall_forall in Hall. specialize (Hall _ Hin). lia.
Qed.

Lemma assigned_Return r rs : assigned (Py.Return r :: rs) = r :: assigned rs.
Proof. reflexivity. Qed.

(** While rowids are left every call returns, and the numbers returned are
    the next ones in a row. *)
Lemma add_payments_consecutive calls db :
  last_rowid db + Z.of_nat (length calls) <= MAX_ROWID →
  assigned (add_payments calls db).1 = seqZ (last_rowid db + 1) (Z.of_nat (length calls)).
Proof.
  revert db. induction calls as [|c calls IH]; intros db Hroom; [done|].
  cbn [add_payments].
  rewrite add_payment_db_returns by (cbn [length] in Hroom; lia).
  set (db1 := mkDB _ _ _).
  assert (last_rowid db1 = last_rowid db + 1) as Hnext.
  { pose proof (add_payment_db_returns (call_student_id c) (call_amount c)
                  (call_date c) (call_mode c) db) as Hadd.
    apply add_payment_db_Return in Hadd as (_ & _ & Hnext);
      [exact Hnext|cbn [length] in Hroom; lia]. }
  specialize (IH db1). destruct (add_payments calls db1) as [rs db2].
  cbn [fst] in *. rewrite assigned_Return.
  rewrite IH by (rewrite Hnext; cbn [length] in Hroom; lia).
  rewrite Hnext, (seqZ_cons (last_rowid db + 1)) by (cbn [length]; lia).
  do 2 f_equal; cbn [length]; lia.
Qed.

(** C2. Over any sequence of calls of [add_payment_db], for whichever
    students, the receipt numbers returned are strictly increasing in call
    order, hence pairwise distinct, and each is larger than every receipt
    number already in [payments]: none is used twice.  The rows that were in
    [payments] are still there unchanged, and the rows added carry exactly
    the numbers returned.  While rowids are left, every call returns one,
    the next in a row. *)
Theorem receipt_numbers_increasing_unique calls db :
  let rs := assigned (add_payments calls db).1 in
  let db' := (add_payments calls db).2 in
  StronglySorted Z.lt rs
  ∧ NoDup rs
  ∧ (∀ r p, r ∈ rs → p ∈ payments db → Payment.receipt_no p < r)
  ∧ (∃ rows, payments db' = payments db ++ rows ∧ Payment.receipt_no <$> rows = rs)
  ∧ (last_rowid db + Z.of_nat (length calls) <= MAX_ROWID →
     rs = seqZ (last_rowid db + 1) (Z.of_nat (length calls))).
Proof.
  intros rs db'. subst rs db'.
  destruct (add_payments_receipts calls db) as (Hsorted & Hlast & Hrows).
  split_and!; [done|by apply StronglySorted_lt_NoDup| |done|].
  - intros r p Hr Hp. rewrite Forall_forall in Hlast. specialize (Hlast _ Hr).
    apply last_rowid_ge in Hp. simpl in Hlast. lia.
  - apply add_payments_consecutive.
Qed.

(** ** The last payment *)

#[local] Instance receipt_no_desc_total : Total receipt_no_desc.
Proof. intros p q. unfold receipt_no_desc. lia. Qed.

#[local] Instance receipt_no_desc_trans : Transitive receipt_no_desc.
Proof. intros p q r. unfold receipt_no_desc. lia. Qed.

(** A row whose number is above all the others comes first. *)
Lemma head_order_by_newest rows new :
  (∀ p, p ∈ rows → Payment.receipt_no p < Payment.receipt_no new) →
  head (order_by_receipt_no_desc (rows ++ [new])) = Some new.
Proof.
  intros Hlt. unfold order_by_receipt_no_desc.
  pose proof (StronglySorted_merge_sort receipt_no_desc (rows ++ [new])) as Hsorted.
  pose proof (merge_sort_Permutation receipt_no_desc (rows ++ [new])) as Hperm.
  destruct (merge_sort receipt_no_desc (rows ++ [new])) as [|h t].
  - apply Permutation_nil_l in Hperm. by destruct rows.
  - simpl. f_equal. apply StronglySorted_cons in Hsorted as [Hfirst _].
    assert (new ∈ h :: t) as Hnew by (rewrite Hperm; set_solver).
    assert (h ∈ rows ++ [new]) as Hh by (rewrite <- Hperm; left).
    apply elem_of_app in Hh as [Hh|Hh]; [|by apply list_elem_of_singleton in Hh].
    apply Hlt in Hh. apply elem_of_cons in Hnew as [->|Hnew]; [done|].
    rewrite Forall_forall in Hfirst. specialize (Hfirst _ Hnew).
    unfold receipt_no_desc in Hfirst. lia.
Qed.

Lemma where_student_id_app sid rows p :
  Payment.student_id p = sid →
  where_student_id sid (rows ++ [p]) = where_student_id sid rows ++ [p].
Proof.
  intros Hsid. unfold where_student_id. rewrite filter_app. f_equal.
  rewrite filter_cons. by case_decide.
Qed.

Lemma where_student_id_elem sid rows p :
  p ∈ where_student_id sid rows → p ∈ rows.
Proof. unfold where_student_id. rewrite list_elem_of_filter. tauto. Qed.

Lemma where_student_id_after_add sid amount date mode db :
  let r := last_rowid db + 1 in
  let row := Payment.mk r sid amount date mode in
  where_student_id sid (payments db ++ [row]) = where_student_id sid (payments db) ++ [row]
  ∧ ∀ p, p ∈ where_student_id sid (payments db) → Payment.receipt_no p < r.
Proof.
  intros r row. split; [by apply where_student_id_app|].
  intros p Hp. apply where_student_id_elem, last_rowid_ge in Hp. lia.
Qed.

Lemma get_last_payment_newest sid amount date mode db :
  let r := last_rowid db + 1 in
  let row := Payment.mk r sid amount date mode in
  get_last_payment sid (mkDB (students db) (payments db ++ [row]) r) = Some row.
Proof.
  intros r row. destruct (where_student_id_after_add sid amount date mode db) as [Heq Hlt].
  unfold get_last_payment. cbn [payments]. subst r row. rewrite Heq.
  by apply head_order_by_newest.
Qed.


(** ** Recording a payment from the form *)

(** The handler once a student is fetched and the amount typed is a number:
    what is left is the comparison with the due amount. *)
Lemma record_payment_checked float now w db student amt due :
  MainWindow.current_student w = Some student →
  Py.truthy (Py.strip (MainWindow.p_amount w)) = true →
  float (Py.strip (MainWindow.p_amount w)) = Some (Py.Num amt) →
  get_total_due (Student.student_id student) db = Some due →
  MainWindow.record_payment_and_receipt float now w db
  = if decide (amt > due)
    then (MainWindow.Shown [MainWindow.WarnInvalidPayment due], w, db)
    else
      let sid := Student.student_id student in
      match add_payment_db sid (Py.Num amt) now (MainWindow.p_mode w) db with
      | (Py.Raise e, db') => (MainWindow.Raised [] e, w, db')
      | (Py.Return receipt_no, db') =>
          match get_last_payment sid db' with
          | None => (MainWindow.Raised [] Py.TypeError, w, db')
          | Some payment =>
              match generate_receipt_pdf sid receipt_no student payment db' with
              | Py.Raise e => (MainWindow.Raised [] e, w, db')
              | Py.Return pdf =>
                  (MainWindow.Shown [MainWindow.InfoSuccess pdf],
                   MainWindow.mk (MainWindow.input_sid w) (MainWindow.input_name w)
                     (MainWindow.input_class w) (MainWindow.input_total_fee w)
                     (MainWindow.photo_path w) "" "" (MainWindow.p_mode w) None,
                   db')
              end
          end
      end.
Proof.
  intros Hcur Htext Hamt Hdue. unfold MainWindow.record_payment_and_receipt.
  rewrite Hcur, Htext. simpl. rewrite Hamt, Hdue. unfold Py.gt.
  destruct (decide (amt > due)) as [Hgt|Hle].
  - by rewrite bool_decide_eq_true_2.
  - by rewrite bool_decide_eq_false_2.
Qed.

(** C3. When a student is fetched and the amount typed is a number larger
    than the student's current due amount, the handler shows the warning
    with the due amount and returns: no row is added to [payments], no
    receipt number is given out, and the window and the database, that is
    the students, the payments and the receipt counter, are as before. *)
Theorem overpayment_rejected float now w db student amt due :
  MainWindow.current_student w = Some student →
  Py.truthy (Py.strip (MainWindow.p_amount w)) = true →
  float (Py.strip (MainWindow.p_amount w)) = Some (Py.Num amt) →
  get_total_due (Student.student_id student) db = Some due →
  amt > due →
  MainWindow.record_payment_and_receipt float now w db
  = (MainWindow.Shown [MainWindow.WarnInvalidPayment due], w, db).
Proof.
  intros Hcur Htext Hamt Hdue Hgt.
  rewrite (record_payment_checked float now w db student amt due) by done.
  by case_decide.
Qed.

(** An amount that is not above the due amount is recorded, whatever its
    sign, as long as a rowid is left. *)
Lemma payment_recorded float now w db student amt due :
  MainWindow.current_student w = Some student →
  Py.truthy (Py.strip (MainWindow.p_amount w)) = true →
  float (Py.strip (MainWindow.p_amount w)) = Some (Py.Num amt) →
  get_total_due (Student.student_id student) db = Some due →
  amt <= due →
  last_rowid db < MAX_ROWID →
  let sid := Student.student_id student in
  let r := last_rowid db + 1 in
  let row := Payment.mk r sid (Some amt) now (MainWindow.p_mode w) in
  let db' := mkDB (students db) (payments db ++ [row]) r in
  MainWindow.record_payment_and_receipt float now w db
  = (MainWindow.Shown
       [MainWindow.InfoSuccess
          (mkReceipt student row (get_total_paid sid db')
             (Student.total_fee student - get_total_paid sid db'))],
     MainWindow.mk (MainWindow.input_sid w) (MainWindow.input_name w)
       (MainWindow.input_class w) (MainWindow.input_total_fee w)
       (MainWindow.photo_path w) "" "" (MainWindow.p_mode w) None,
     db').
Proof.
  intros Hcur Htext Hamt Hdue Hle Hroom sid r row db'.
  rewrite (record_payment_checked float now w db student amt due) by done.
  case_decide; [lia|]. simpl.
  pose proof (add_payment_db_returns sid (Py.Num amt) now (MainWindow.p_mode w) db Hroom)
    as Hadd.
  fold sid. rewrite Hadd.
  pose proof (get_last_payment_newest sid (Some amt) now (MainWindow.p_mode w) db) as Hlast.
  simpl in Hlast. simpl sql_real. by rewrite Hlast.
Qed.

(** C4, as the code has it.  A student whose total fee is 0 and who has no
    payment owes 0, and every attempt to pay such a student an amount above
    0 is turned down against that due amount of 0, leaving the database as
    it was.  (An amount of 0 or less is not above the due amount and is not
    turned down.) *)
Theorem zero_fee_positive_amount_rejected db student row :
  let sid := Student.student_id student in
  students db !! sid = Some row →
  Student.total_fee row = 0 →
  where_student_id sid (payments db) = [] →
  get_total_due sid db = Some 0
  ∧ ∀ float now w amt,
      MainWindow.current_student w = Some student →
      Py.truthy (Py.strip (MainWindow.p_amount w)) = true →
      float (Py.strip (MainWindow.p_amount w)) = Some (Py.Num amt) →
      amt > 0 →
      MainWindow.record_payment_and_receipt float now w db
      = (MainWindow.Shown [MainWindow.WarnInvalidPayment 0], w, db).
Proof.
  intros sid Hrow Hfee Hnone.
  assert (get_total_due sid db = Some 0) as Hdue.
  { rewrite (get_total_due_found _ _ _ Hrow), Hfee.
    unfold get_total_paid. by rewrite Hnone. }
  split; [done|]. intros float now w amt Hcur Htext Hamt Hpos.
  rewrite (record_payment_checked float now w db student amt 0) by done.
  by case_decide.
Qed.

(** C5, as the code has it.  No check is made that the amount is above 0.
    When the amount typed is 0 or less and not above the due amount, the
    handler calls [add_payment_db], which adds the row with that amount
    under the next receipt number, and the handler reports the payment as
    recorded. *)
Theorem nonpositive_payment_recorded float now w db student amt due :
  MainWindow.current_student w = Some student →
  Py.truthy (Py.strip (MainWindow.p_amount w)) = true →
  float (Py.strip (MainWindow.p_amount w)) = Some (Py.Num amt) →
  get_total_due (Student.student_id student) db = Some due →
  amt <= 0 →
  amt <= due →
  last_rowid db < MAX_ROWID →
  let sid := Student.student_id student in
  let r := last_rowid db + 1 in
  let row := Payment.mk r sid (Some amt) now (MainWindow.p_mode w) in
  let db' := mkDB (students db) (payments db ++ [row]) r in
  add_payment_db sid (Py.Num amt) now (MainWindow.p_mode w) db = (Py.Return r, db')
  ∧ generate_receipt_pdf sid r student row db'
    = Py.Return (mkReceipt student row (get_total_paid sid db')
                   (Student.total_fee student - get_total_paid sid db'))
  ∧ MainWindow.record_payment_and_receipt float now w db
    = (MainWindow.Shown
         [MainWindow.InfoSuccess
            (mkReceipt student row (get_total_paid sid db')
               (Student.total_fee student - get_total_paid sid db'))],
       MainWindow.mk (MainWindow.input_sid w) (MainWindow.input_name w)
         (MainWindow.input_class w) (MainWindow.input_total_fee w)
         (MainWindow.photo_path w) "" "" (MainWindow.p_mode w) None,
       db').
Proof.
  intros Hcur Htext Hamt Hdue _ Hle Hroom sid r row db'. split_and!.
  - by apply add_payment_db_returns.
  - reflexivity.
  - by apply (payment_recorded float now w db student amt due).
Qed.

(** ** Saving a student from the form *)

(** C6, as the code has it.  No check is made that the total fee is 0 or
    more, neither by [save_student] nor by [add_student_db].  When the three
    required fields are filled in and the fee typed is a number below 0, the
    student is saved with that fee and [get_student] returns the row. *)
Theorem negative_fee_saved float splitext copy2 w db fee :
  let sid := Py.strip (MainWindow.input_sid w) in
  let name := Py.strip (MainWindow.input_name w) in
  let sclass := Py.strip (MainWindow.input_class w) in
  Py.truthy sid = true →
  Py.truthy name = true →
  Py.truthy (Py.strip (MainWindow.input_total_fee w)) = true →
  float (Py.strip (MainWindow.input_total_fee w)) = Some (Py.Num fee) →
  fee < 0 →
  ∃ boxes photo_dest,
    add_student_db sid name sclass (Py.Num fee) photo_dest db
    = (Py.Return tt, (add_student_db sid name sclass (Py.Num fee) photo_dest db).2)
    ∧ MainWindow.save_student float splitext copy2 w db
      = (MainWindow.Shown (boxes ++ [MainWindow.InfoSaved name sid]),
         MainWindow.mk "" "" "" "" None (MainWindow.p_sid w) (MainWindow.p_amount w)
           (MainWindow.p_mode w) (MainWindow.current_student w),
         (add_student_db sid name sclass (Py.Num fee) photo_dest db).2)
    ∧ get_student sid (add_student_db sid name sclass (Py.Num fee) photo_dest db).2
      = Some (Student.mk sid name sclass fee photo_dest).
Proof.
  intros sid name sclass Hsid Hname Htext Hfee _.
  unfold MainWindow.save_student. fold sid name sclass.
  rewrite Hsid, Hname, Htext. simpl. rewrite Hfee.
  assert (∀ photo_dest,
    get_student sid (add_student_db sid name sclass (Py.Num fee) photo_dest db).2
    = Some (Student.mk sid name sclass fee photo_dest)) as Hget.
  { intros photo_dest. apply lookup_insert_eq. }
  destruct (MainWindow.photo_path w) as [path|];
    [|exists [], None; split_and!; [reflexivity..|apply Hget]].
  destruct (Py.truthy path);
    [|exists [], None; split_and!; [reflexivity..|apply Hget]].
  destruct (copy2 _ _); eexists _, _; split_and!; try reflexivity; apply Hget.
Qed.

(** * The worked ledger *)

Import Scenario.

(** The scenario of the specification: S1 owes 1000.00; 400.00 in cash is
    recorded under receipt 1 and leaves 600.00 due; 650.00 is turned down
    and the due amount stays; 600.00 by UPI is recorded under receipt 2 and
    leaves nothing due. *)
Example scenario_s1 :
  MainWindow.record_payment_and_receipt float_of_digits now1 (paying s1 "400" "Cash") db_start
  = (MainWindow.Shown
       [MainWindow.InfoSuccess
          (mkReceipt s1 (Payment.mk 1 "S1" (Some 40000) now1 "Cash") 40000 60000)],
     paid "Cash", db_400)
  ∧ get_total_due "S1" db_400 = Some 60000
  ∧ MainWindow.record_payment_and_receipt float_of_digits now2 (paying s1 "650" "UPI") db_400
    = (MainWindow.Shown [MainWindow.WarnInvalidPayment 60000], paying s1 "650" "UPI", db_400)
  ∧ MainWindow.record_payment_and_receipt float_of_digits now2 (paying s1 "600" "UPI") db_400
    = (MainWindow.Shown
         [MainWindow.InfoSuccess
            (mkReceipt s1 (Payment.mk 2 "S1" (Some 60000) now2 "UPI") 100000 0)],
       paid "UPI", db_1000)
  ∧ get_total_due "S1" db_1000 = Some 0.
Proof. split_and!; vm_compute; reflexivity. Qed.

Example fetch_s1 :
  MainWindow.fetch_student_for_payment
    (MainWindow.mk "" "" "" "" None " S1 " "400" "Cash" None) db_start
  = (MainWindow.Shown [],
     MainWindow.mk "" "" "" "" None " S1 " "400" "Cash" (Some s1), db_start).
Proof. vm_compute. reflexivity. Qed.

Example three_calls_receipts :
  assigned (add_payments three_calls db_start).1 = [1; 2; 3].
Proof. vm_compute. reflexivity. Qed.

Example rowids_used_up :
  add_payment_db "S1" (Py.Num 40000) now1 "Cash" db_full
  = (Py.Raise Py.OperationalError, db_full).
Proof. vm_compute. reflexivity. Qed.

Lemma total_due_is_fee_minus_paid_witness :
  students db_start !! "S1" = Some s1
  ∧ get_total_due "S1" (add_payments three_calls db_start).2
    = Some (Student.total_fee s1 - get_total_paid "S1" (add_payments three_calls db_start).2).
Proof.
  split; [vm_compute; reflexivity|].
  apply (total_due_is_fee_minus_paid three_calls db_start "S1" s1).
  vm_compute; reflexivity.
Defined.

Lemma total_due_unknown_student_witness :
  students db_orphan !! "S9" = None
  ∧ where_student_id "S9" (payments db_orphan) = [Payment.mk 1 "S9" (Some 2500) now1 "Cash"]
  ∧ get_total_due "S9" db_orphan = None.
Proof.
  split_and!; [vm_compute; reflexivity..|].
  apply (total_due_unknown_student "S9" db_orphan). vm_compute; reflexivity.
Defined.

Lemma total_paid_no_payments_witness :
  where_student_id "S9" (payments db_400) = []
  ∧ get_student "S9" db_400 = None
  ∧ get_total_paid "S9" db_400 = 0
  ∧ where_student_id "S0" (payments db_400) = []
  ∧ get_student "S0" db_400 = Some s0
  ∧ get_total_paid "S0" db_400 = 0.
Proof.
  split_and!.
  - vm_compute; reflexivity.
  - vm_compute; reflexivity.
  - apply (total_paid_no_payments "S9" db_400). vm_compute; reflexivity.
  - vm_compute; reflexivity.
  - vm_compute; reflexivity.
  - apply (total_paid_no_payments "S0" db_400). vm_compute; reflexivity.
Defined.

Lemma add_student_db_replaces_witness :
  get_student "S1" db_400 = Some s1
  ∧ get_student "S1"
      (add_student_db "S1" "Student One" "MSc" (Py.Num 120000)
         (Some "student_photos/S1.png") db_400).2
    = Some (Student.mk "S1" "Student One" "MSc" 120000 (Some "student_photos/S1.png"))
  ∧ payments
      (add_student_db "S1" "Student One" "MSc" (Py.Num 120000)
         (Some "student_photos/S1.png") db_400).2
    = [Payment.mk 1 "S1" (Some 40000) now1 "Cash"].
Proof.
  split; [vm_compute; reflexivity|].
  destruct (add_student_db_replaces "S1" "Student One" "MSc" 120000
              (Some "student_photos/S1.png") db_400) as (_ & Hrow & _ & _ & Hpay & _).
  - exists s1. vm_compute; reflexivity.
  - split; [exact Hrow|]. rewrite Hpay. vm_compute; reflexivity.
Defined.



Lemma overpayment_rejected_witness :
  get_total_due "S1" db_400 = Some 60000
  ∧ MainWindow.record_payment_and_receipt float_of_digits now2 (paying s1 "650" "UPI") db_400
    = (MainWindow.Shown [MainWindow.WarnInvalidPayment 60000], paying s1 "650" "UPI", db_400).
Proof.
  split; [vm_compute; reflexivity|].
  apply (overpayment_rejected float_of_digits now2 (paying s1 "650" "UPI") db_400 s1
           65000 60000); [vm_compute; reflexivity..|lia].
Defined.

(** C4 as stated fails: S0 owes nothing and has no payment, and the amount
    -5.00 is recorded for S0 under receipt 1. *)
Lemma zero_fee_negative_amount_recorded :
  get_student "S0" db_start = Some s0
  ∧ Student.total_fee s0 = 0
  ∧ payments db_start = []
  ∧ get_total_due "S0" db_start = Some 0
  ∧ MainWindow.record_payment_and_receipt float_of_digits now1 (paying s0 "-5" "Cash") db_start
    = (MainWindow.Shown
         [MainWindow.InfoSuccess
            (mkReceipt s0 (Payment.mk 1 "S0" (Some (-500)) now1 "Cash") (-500) 500)],
       paid "Cash",
       mkDB (students db_start) [Payment.mk 1 "S0" (Some (-500)) now1 "Cash"] 1).
Proof. split_and!; vm_compute; reflexivity. Qed.

Lemma zero_fee_positive_amount_rejected_witness :
  students db_start !! "S0" = Some s0
  ∧ Student.total_fee s0 = 0
  ∧ where_student_id "S0" (payments db_start) = []
  ∧ get_total_due "S0" db_start = Some 0
  ∧ MainWindow.record_payment_and_receipt float_of_digits now1 (paying s0 "5" "Cash") db_start
    = (MainWindow.Shown [MainWindow.WarnInvalidPayment 0], paying s0 "5" "Cash", db_start).
Proof.
  destruct (zero_fee_positive_amount_rejected db_start s0 s0) as [Hdue Hrej];
    [vm_compute; reflexivity..|].
  split_and!; [vm_compute; reflexivity..|exact Hdue|].
  apply (Hrej float_of_digits now1 (paying s0 "5" "Cash") 500);
    [vm_compute; reflexivity..|lia].
Defined.

(** C5 as stated fails: [add_payment_db] stores a payment of 0.00, and the
    handler records a payment of -5.00 for S1, each under receipt 1. *)
Lemma nonpositive_amount_not_refused :
  add_payment_db "S1" (Py.Num 0) now1 "Cash" db_start
  = (Py.Return 1, mkDB (students db_start) [Payment.mk 1 "S1" (Some 0) now1 "Cash"] 1)
  ∧ MainWindow.record_payment_and_receipt float_of_digits now1 (paying s1 "-5" "Cash") db_start
    = (MainWindow.Shown
         [MainWindow.InfoSuccess
            (mkReceipt s1 (Payment.mk 1 "S1" (Some (-500)) now1 "Cash") (-500) 100500)],
       paid "Cash",
       mkDB (students db_start) [Payment.mk 1 "S1" (Some (-500)) now1 "Cash"] 1).
Proof. split_and!; vm_compute; reflexivity. Qed.

Lemma nonpositive_payment_recorded_witness :
  get_total_due "S1" db_start = Some 100000
  ∧ add_payment_db "S1" (Py.Num (-500)) now1 "Cash" db_start
    = (Py.Return 1,
       mkDB (students db_start) [Payment.mk 1 "S1" (Some (-500)) now1 "Cash"] 1)
  ∧ MainWindow.record_payment_and_receipt float_of_digits now1 (paying s1 "-5" "Cash") db_start
    = (MainWindow.Shown
         [MainWindow.InfoSuccess
            (mkReceipt s1 (Payment.mk 1 "S1" (Some (-500)) now1 "Cash") (-500) 100500)],
       paid "Cash",
       mkDB (students db_start) [Payment.mk 1 "S1" (Some (-500)) now1 "Cash"] 1).
Proof.
  split; [vm_compute; reflexivity|].
  destruct (nonpositive_payment_recorded float_of_digits now1 (paying s1 "-5" "Cash")
              db_start s1 (-500) 100000) as (Hadd & _ & Hres);
    try (vm_compute; reflexivity); try lia.
  split; [exact Hadd|exact Hres].
Defined.

(** C6 as stated fails: a fee of -100.00 typed for S2 is saved. *)
Lemma negative_fee_not_refused :
  MainWindow.save_student float_of_digits no_ext copy_ok
    (entering "S2" "Second Student" "BA" "-100") db_start
  = (MainWindow.Shown [MainWindow.InfoSaved "Second Student" "S2"],
     entering "" "" "" "",
     (add_student_db "S2" "Second Student" "BA" (Py.Num (-10000)) None db_start).2)
  ∧ get_student "S2"
      (add_student_db "S2" "Second Student" "BA" (Py.Num (-10000)) None db_start).2
    = Some (Student.mk "S2" "Second Student" "BA" (-10000) None).
Proof. split_and!; vm_compute; reflexivity. Qed.

Lemma negative_fee_saved_witness :
  float_of_digits (Py.strip "-100") = Some (Py.Num (-10000))
  ∧ ∃ boxes photo_dest,
      MainWindow.save_student float_of_digits no_ext copy_ok
        (entering "S2" "Second Student" "BA" "-100") db_start
      = (MainWindow.Shown (boxes ++ [MainWindow.InfoSaved "Second Student" "S2"]),
         entering "" "" "" "",
         (add_student_db "S2" "Second Student" "BA" (Py.Num (-10000)) photo_dest db_start).2)
      ∧ get_student "S2"
          (add_student_db "S2" "Second Student" "BA" (Py.Num (-10000)) photo_dest db_start).2
        = Some (Student.mk "S2" "Second Student" "BA" (-10000) photo_dest).
Proof.
  split; [vm_compute; reflexivity|].
  destruct (negative_fee_saved float_of_digits no_ext copy_ok
              (entering "S2" "Second Student" "BA" "-100") db_start (-10000))
    as (boxes & photo & _ & Hsave & Hget);
    try (vm_compute; reflexivity); try lia.
  exists boxes, photo. split; [exact Hsave|exact Hget].
Defined.
(** * Further properties of the ledger *)

(** ** Saving over a student *)

(** X1. Saving twice under one id keeps nothing of the first save: the
    result and the database are those the second save alone would give,
    whether the first save stored its row or failed.  Saves under different
    ids do not disturb each other. *)
Theorem add_student_db_last_wins sid n1 c1 (f1 : Py.float) p1 n2 c2 (f2 : Z) p2 db :
  add_student_db sid n2 c2 (Py.Num f2) p2 (add_student_db sid n1 c1 f1 p1 db).2
  = add_student_db sid n2 c2 (Py.Num f2) p2 db
  ∧ ∀ sid' (g2 : Py.float), sid' ≠ sid →
      (add_student_db sid' n2 c2 g2 p2 (add_student_db sid n1 c1 f1 p1 db).2).2
      = (add_student_db sid n1 c1 f1 p1 (add_student_db sid' n2 c2 g2 p2 db).2).2.
Proof.
  split.
  - rewrite !add_student_db_Num. destruct f1 as [f1|]; [|done].
    rewrite add_student_db_Num. cbn [snd students payments sqlite_sequence].
    by rewrite insert_insert_eq.
  - intros sid' g2 Hne. destruct f1 as [f1|], g2 as [g2|]; [|done..].
    rewrite !add_student_db_Num. cbn [snd students payments sqlite_sequence].
    f_equal. by apply insert_insert_ne.
Qed.

Lemma get_total_paid_add_student sid' sid name cls fee photo db :
  get_total_paid sid' (add_student_db sid name cls fee photo db).2 = get_total_paid sid' db.
Proof. by destruct fee. Qed.

(** X2. Saving a student with another total fee changes the due amount at
    once: it is the new fee minus what was paid before, and so negative
    when the new fee is below the amount paid.  The amount paid, of this
    and of every other id, is what it was. *)
Theorem add_student_db_changes_due sid name cls fee photo db :
  let db' := (add_student_db sid name cls (Py.Num fee) photo db).2 in
  get_total_due sid db' = Some (fee - get_total_paid sid db)
  ∧ (fee < get_total_paid sid db → ∃ due, get_total_due sid db' = Some due ∧ due < 0)
  ∧ (∀ sid', get_total_paid sid' db' = get_total_paid sid' db)
  ∧ (∀ sid', sid' ≠ sid → get_total_due sid' db' = get_total_due sid' db).
Proof.
  intros db'.
  assert (get_total_due sid db' = Some (fee - get_total_paid sid db)) as Hdue.
  { rewrite (get_total_due_found sid db' (Student.mk sid name cls fee photo)).
    - done.
    - apply lookup_insert_eq. }
  split_and!; [done| |done|].
  - intros Hlt. eexists. split; [exact Hdue|lia].
  - intros sid' Hne. unfold get_total_due, db'. simpl.
    by rewrite lookup_insert_ne.
Qed.

(** ** What a payment does to the balance *)

Lemma where_student_id_app_ne sid rows p :
  Payment.student_id p ≠ sid →
  where_student_id sid (rows ++ [p]) = where_student_id sid rows.
Proof.
  intros Hne. unfold where_student_id. rewrite filter_app, filter_cons.
  case_decide; [done|]. by rewrite filter_nil, app_nil_r.
Qed.

(** The balance of an id reads the student row and the payments of the id,
    nothing else. *)
Lemma get_total_same_rows sid db db' :
  students db' = students db →
  where_student_id sid (payments db') = where_student_id sid (payments db) →
  get_total_paid sid db' = get_total_paid sid db
  ∧ get_total_due sid db' = get_total_due sid db.
Proof.
  intros Hstudents Hrows. unfold get_total_due, get_total_paid.
  by rewrite Hstudents, Hrows.
Qed.

(** SUM skips a NULL. *)
Lemma sql_sum_snoc_None xs : sql_sum (xs ++ [None]) = sql_sum xs.
Proof. unfold sql_sum. rewrite omap_app. simpl. by rewrite app_nil_r. Qed.

(** A row without amount changes no balance. *)
Lemma get_total_null_row sid' r sid date mode db seq :
  let db' := mkDB (students db) (payments db ++ [Payment.mk r sid None date mode]) seq in
  get_total_paid sid' db' = get_total_paid sid' db
  ∧ get_total_due sid' db' = get_total_due sid' db.
Proof.
  intros db'.
  assert (get_total_paid sid' db' = get_total_paid sid' db) as Hpaid.
  { unfold get_total_paid, db'. cbn [payments].
    destruct (decide (sid = sid')) as [->|Hne].
    - rewrite where_student_id_app by done. rewrite fmap_app.
      change (Payment.amount_paid <$> [Payment.mk r sid' None date mode]) with [@None Z].
      by rewrite sql_sum_snoc_None.
    - by rewrite where_student_id_app_ne. }
  split; [done|]. unfold get_total_due. by rewrite Hpaid.
Qed.

(** X3. A payment that [add_payment_db] has stored is one more row among
    the payments of its student and touches no other id: the payments, the
    total paid and the due amount of every other id are as before.  When
    the amount is NaN the row holds no amount, and the total paid and the
    due amount of its own student are as before as well. *)
Theorem add_payment_db_isolated sid amt date mode db r db' :
  add_payment_db sid amt date mode db = (Py.Return r, db') →
  where_student_id sid (payments db')
  = where_student_id sid (payments db) ++ [Payment.mk r sid (sql_real amt) date mode]
  ∧ (amt = Py.NaN →
     get_total_paid sid db' = get_total_paid sid db
     ∧ get_total_due sid db' = get_total_due sid db)
  ∧ (∀ sid', sid' ≠ sid →
       where_student_id sid' (payments db') = where_student_id sid' (payments db)
       ∧ get_total_paid sid' db' = get_total_paid sid' db
       ∧ get_total_due sid' db' = get_total_due sid' db).
Proof.
  intros Hadd. apply add_payment_db_Return in Hadd as (_ & -> & _).
  cbn [payments]. split_and!.
  - by apply where_student_id_app.
  - intros ->. apply get_total_null_row.
  - intros sid' Hne.
    assert (where_student_id sid'
              (payments db ++ [Payment.mk r sid (sql_real amt) date mode])
            = where_student_id sid' (payments db)) as Hrows
      by (apply where_student_id_app_ne; simpl; congruence).
    split; [done|]. by apply get_total_same_rows.
Qed.

(** X4. [add_payment_db] does not look for the student: a payment under an
    id that has no row in [students] is stored under the next receipt number
    and is then the last payment of that id.  The id still has no due
    amount, and searching for it shows no student and no payment. *)
Theorem orphan_payment_stored sid amt date mode db :
  students db !! sid = None →
  last_rowid db < MAX_ROWID →
  let r := last_rowid db + 1 in
  let row := Payment.mk r sid (sql_real amt) date mode in
  let db' := mkDB (students db) (payments db ++ [row]) r in
  add_payment_db sid amt date mode db = (Py.Return r, db')
  ∧ get_last_payment sid db' = Some row
  ∧ get_total_due sid db' = None
  ∧ ∀ text, Py.strip text = sid →
      MainWindow.search_student text db' = MainWindow.SearchWarnInput
      ∨ MainWindow.search_student text db' = MainWindow.SearchNotFound.
Proof.
  intros Hnone Hroom r row db'. split_and!.
  - by apply add_payment_db_returns.
  - apply get_last_payment_newest.
  - unfold get_total_due. subst db'. cbn [students]. by rewrite Hnone.
  - intros text Htext. unfold MainWindow.search_student. rewrite Htext.
    destruct (negb _); [by left|right].
    unfold get_student. subst db'. cbn [students]. by rewrite Hnone.
Qed.

(** ** The last payment and the payment list *)

Lemma order_by_sorted rows :
  StronglySorted receipt_no_desc (order_by_receipt_no_desc rows).
Proof. apply StronglySorted_merge_sort; apply _. Qed.

Lemma order_by_perm rows : order_by_receipt_no_desc rows ≡ₚ rows.
Proof. apply merge_sort_Permutation. Qed.

Lemma where_student_id_spec sid rows p :
  p ∈ where_student_id sid rows ↔ Payment.student_id p = sid ∧ p ∈ rows.
Proof. unfold where_student_id. by rewrite list_elem_of_filter. Qed.

(** The first row of the ordered list is above all rows of the list. *)
Lemma head_order_by_max rows p :
  head (order_by_receipt_no_desc rows) = Some p →
  p ∈ rows ∧ ∀ q, q ∈ rows → Payment.receipt_no q <= Payment.receipt_no p.
Proof.
  intros Hhead. pose proof (order_by_sorted rows) as Hsorted.
  pose proof (order_by_perm rows) as Hperm.
  destruct (order_by_receipt_no_desc rows) as [|h t]; [done|].
  injection Hhead as ->. apply StronglySorted_cons in Hsorted as [Hfirst _].
  rewrite Forall_forall in Hfirst. split.
  - rewrite <- Hperm. left.
  - intros q Hq. rewrite <- Hperm in Hq.
    apply elem_of_cons in Hq as [->|Hq]; [lia|]. by apply Hfirst.
Qed.

Lemma head_order_by_None rows :
  head (order_by_receipt_no_desc rows) = None ↔ rows = [].
Proof.
  pose proof (order_by_perm rows) as Hperm. split.
  - intros Hhead. destruct (order_by_receipt_no_desc rows) as [|h t]; [|done].
    by apply Permutation_nil_l in Hperm.
  - by intros ->.
Qed.

(** X5. [get_last_payment] returns nothing exactly when the id has no
    payment; otherwise it returns a stored payment of that id whose receipt
    number no other payment of the id exceeds. *)
Theorem get_last_payment_spec sid db :
  (get_last_payment sid db = None ↔ where_student_id sid (payments db) = [])
  ∧ ∀ p, get_last_payment sid db = Some p →
      p ∈ payments db
      ∧ Payment.student_id p = sid
      ∧ ∀ q, q ∈ payments db → Payment.student_id q = sid →
             Payment.receipt_no q <= Payment.receipt_no p.
Proof.
  unfold get_last_payment. split; [apply head_order_by_None|].
  intros p Hhead. apply head_order_by_max in Hhead as [Hp Hmax].
  apply where_student_id_spec in Hp as [Hsid Hp]. split_and!; [done..|].
  intros q Hq Hqsid. apply Hmax. by apply where_student_id_spec.
Qed.

(** X6. When [search_student] shows a student, the row is the one stored
    under the id typed (white space around it aside), the total paid shown
    is [get_total_paid] of the id of the row and the remaining amount is the
    total fee of the row minus it, which is the due amount of the id typed
    when the row is stored under its own id.  The table lists every payment
    of the student once, none of another id, the largest receipt number
    first; its first row is the student's last payment. *)
Theorem search_student_shown text db student total_paid remain rows :
  MainWindow.search_student text db
  = MainWindow.SearchShown student total_paid remain rows →
  get_student (Py.strip text) db = Some student
  ∧ total_paid = get_total_paid (Student.student_id student) db
  ∧ remain = Student.total_fee student - total_paid
  ∧ (Student.student_id student = Py.strip text →
     get_total_due (Py.strip text) db = Some remain)
  ∧ StronglySorted receipt_no_desc rows
  ∧ rows ≡ₚ where_student_id (Student.student_id student) (payments db)
  ∧ (∀ p, p ∈ rows ↔ Payment.student_id p = Student.student_id student ∧ p ∈ payments db)
  ∧ head rows = get_last_payment (Student.student_id student) db.
Proof.
  unfold MainWindow.search_student. destruct (negb _); [done|].
  destruct (get_student (Py.strip text) db) as [row|] eqn:Hrow; [|done].
  intros [= <- <- <- <-].
  split_and!; [done..| |apply order_by_sorted|apply order_by_perm| |done].
  - intros Hsid. rewrite (get_total_due_found _ _ row Hrow). by rewrite Hsid.
  - intros p. rewrite order_by_perm. apply where_student_id_spec.
Qed.

(** ** The payment handler, case by case *)

(** A text of white space only strips to the empty text. *)
Lemma lstrip_blank_upto n s :
  (String.length s <= n)%nat → blank s = true → Py.lstrip_from false s = "".
Proof.
  revert s. induction n as [|n IH]; intros s Hlen Hblank.
  - destruct s; [done|]. simpl in Hlen. lia.
  - destruct s as [|a1 s1]; [done|]. cbn [blank Py.lstrip_from] in *.
    cbn [String.length] in Hlen.
    destruct (Py.isspace a1); [apply IH; [lia|done]|].
    destruct s1 as [|a2 s2]; [done|]. cbn [String.length] in Hlen.
    destruct (Py.isspace2 a1 a2); [apply IH; [lia|done]|].
    destruct s2 as [|a3 s3]; [done|]. cbn [String.length] in Hlen.
    apply andb_true_iff in Hblank as [-> Hblank]. apply IH; [lia|done].
Qed.

Lemma strip_blank s : blank s = true → Py.strip s = "".
Proof.
  intros Hblank. unfold Py.strip, Py.lstrip.
  by rewrite (lstrip_blank_upto (String.length s) s).
Qed.

(** The handler, case by case: a warning, with nothing changed; the
    comparison with a missing due amount; the failed INSERT; or the row is
    stored, and then the receipt is made when the row has an amount and a
    TypeError leaves the handler when it has none. *)
Lemma record_payment_cases float now w db :
  let res := MainWindow.record_payment_and_receipt float now w db in
  (∃ box, (∀ pdf, box ≠ MainWindow.InfoSuccess pdf)
          ∧ res = (MainWindow.Shown [box], w, db))
  ∨ (∃ student, MainWindow.current_student w = Some student
                ∧ students db !! Student.student_id student = None
                ∧ res = (MainWindow.Raised [] Py.TypeError, w, db))
  ∨ (MAX_ROWID <= last_rowid db
     ∧ res = (MainWindow.Raised [] Py.OperationalError, w, db))
  ∨ ∃ student amt due,
      MainWindow.current_student w = Some student
      ∧ Py.truthy (Py.strip (MainWindow.p_amount w)) = true
      ∧ float (Py.strip (MainWindow.p_amount w)) = Some amt
      ∧ get_total_due (Student.student_id student) db = Some due
      ∧ Py.gt amt (Py.Num due) = false
      ∧ last_rowid db < MAX_ROWID
      ∧ let sid := Student.student_id student in
        let r := last_rowid db + 1 in
        let row := Payment.mk r sid (sql_real amt) now (MainWindow.p_mode w) in
        let db' := mkDB (students db) (payments db ++ [row]) r in
        res = match sql_real amt with
              | None => (MainWindow.Raised [] Py.TypeError, w, db')
              | Some _ =>
                  (MainWindow.Shown
                     [MainWindow.InfoSuccess
                        (mkReceipt student row (get_total_paid sid db')
                           (Student.total_fee student - get_total_paid sid db'))],
                   MainWindow.mk (MainWindow.input_sid w) (MainWindow.input_name w)
                     (MainWindow.input_class w) (MainWindow.input_total_fee w)
                     (MainWindow.photo_path w) "" "" (MainWindow.p_mode w) None,
                   db')
              end.
Proof.
  intros res. subst res. unfold MainWindow.record_payment_and_receipt.
  destruct (MainWindow.current_student w) as [student|] eqn:Hcur;
    [|left; eexists; split; [|reflexivity]; done].
  destruct (Py.truthy (Py.strip (MainWindow.p_amount w))) eqn:Htext;
    [|left; eexists; split; [|reflexivity]; done]. cbn [negb].
  destruct (float (Py.strip (MainWindow.p_amount w))) as [amt|] eqn:Hamt;
    [|left; eexists; split; [|reflexivity]; done].
  destruct (get_total_due (Student.student_id student) db) as [due|] eqn:Hdue.
  2:{ right; left. exists student. split_and!; [done| |done].
      unfold get_total_due in Hdue. by destruct (students db !! _). }
  destruct (Py.gt amt (Py.Num due)) eqn:Hgt;
    [left; eexists; split; [|reflexivity]; done|].
  destruct (decide (MAX_ROWID <= last_rowid db)) as [Hfull|Hroom].
  { right; right; left. split; [done|]. unfold add_payment_db.
    by rewrite decide_True. }
  right; right; right. exists student, amt, due. split_and!; [done..|lia|].
  rewrite add_payment_db_returns by lia. rewrite get_last_payment_newest.
  unfold generate_receipt_pdf. cbn [Payment.amount_paid].
  by destruct (sql_real amt).
Qed.

(** X7. The payment handler never writes to [students], and to [payments]
    it adds one row at most: the database afterwards is the one before, or
    the one before with one row added under the id of the fetched student,
    with the next receipt number, the amount typed (none when that is NaN),
    the date of the call and the mode chosen.  When the handler returns
    after a warning, the window and the database are as before.  When an
    exception leaves it, no box was shown and the window is as before.  When
    it reports the payment as recorded, the row added is the payment on the
    receipt and no student is fetched any more. *)
Theorem record_payment_frame float now w db :
  let res := MainWindow.record_payment_and_receipt float now w db in
  students res.2 = students db
  ∧ (res.2 = db
     ∨ ∃ student amt,
         MainWindow.current_student w = Some student
         ∧ float (Py.strip (MainWindow.p_amount w)) = Some amt
         ∧ res.2 = mkDB (students db)
                     (payments db ++
                      [Payment.mk (last_rowid db + 1) (Student.student_id student)
                         (sql_real amt) now (MainWindow.p_mode w)])
                     (last_rowid db + 1))
  ∧ (∀ boxes, res.1.1 = MainWindow.Shown boxes →
       (∀ pdf, boxes ≠ [MainWindow.InfoSuccess pdf]) →
       res.1.2 = w ∧ res.2 = db)
  ∧ (∀ boxes e, res.1.1 = MainWindow.Raised boxes e → boxes = [] ∧ res.1.2 = w)
  ∧ ∀ pdf, res.1.1 = MainWindow.Shown [MainWindow.InfoSuccess pdf] →
      ∃ student,
        MainWindow.current_student w = Some student
        ∧ payments res.2 = payments db ++ [receipt_payment pdf]
        ∧ Payment.student_id (receipt_payment pdf) = Student.student_id student
        ∧ Payment.receipt_no (receipt_payment pdf) = last_rowid db + 1
        ∧ Payment.payment_date (receipt_payment pdf) = now
        ∧ Payment.mode_of_payment (receipt_payment pdf) = MainWindow.p_mode w
        ∧ sqlite_sequence res.2 = last_rowid db + 1
        ∧ MainWindow.current_student res.1.2 = None.
Proof.
  intros res.
  destruct (record_payment_cases float now w db)
    as [(box & Hbox & Hres)|[(student & _ & _ & Hres)|[(_ & Hres)
        |(student & amt & due & Hcur & _ & Hamt & _ & _ & _ & Hres)]]];
    cbv zeta in Hres; fold res in Hres.
  - rewrite Hres. cbn [fst snd]. split_and!; [done|by left|done|done|].
    intros pdf [= ->]. by destruct (Hbox pdf).
  - rewrite Hres. cbn [fst snd]. split_and!; [done|by left|done| |done].
    by intros boxes e [= <- _].
  - rewrite Hres. cbn [fst snd]. split_and!; [done|by left|done| |done].
    by intros boxes e [= <- _].
  - destruct (sql_real amt) as [a|] eqn:Hreal; rewrite Hres; cbn [fst snd students].
    + split_and!; [done|right; exists student, amt; by rewrite Hreal| |done|].
      * intros boxes [= <-] Hno. by destruct (Hno _ eq_refl).
      * intros pdf [= <-]. exists student. by split_and!.
    + split_and!; [done|right; exists student, amt; by rewrite Hreal|done| |done].
      by intros boxes e [= <- _].
Qed.

(** X8. On the receipt of a recorded payment the student is the fetched
    row and the payment is the student's last payment, with the amount
    typed, which is not NaN.  The total paid is the total paid after the
    payment, and the remaining amount is the total fee of the fetched row
    minus that total.  When the fetched row is still the row stored under
    its id, the remaining amount printed is the due amount after the
    payment. *)
Theorem receipt_shows_balance float now w db pdf student :
  (MainWindow.record_payment_and_receipt float now w db).1.1
  = MainWindow.Shown [MainWindow.InfoSuccess pdf] →
  MainWindow.current_student w = Some student →
  let db' := (MainWindow.record_payment_and_receipt float now w db).2 in
  let sid := Student.student_id student in
  receipt_student pdf = student
  ∧ (∃ amt, float (Py.strip (MainWindow.p_amount w)) = Some amt
            ∧ amt ≠ Py.NaN
            ∧ Payment.amount_paid (receipt_payment pdf) = sql_real amt)
  ∧ get_last_payment sid db' = Some (receipt_payment pdf)
  ∧ receipt_total_paid pdf = get_total_paid sid db'
  ∧ receipt_remaining pdf = Student.total_fee student - get_total_paid sid db'
  ∧ (students db !! sid = Some student →
     get_total_due sid db' = Some (receipt_remaining pdf)).
Proof.
  intros Hpdf Hcur db' sid. subst db'.
  destruct (record_payment_cases float now w db)
    as [(box & Hbox & Hres)|[(student' & _ & _ & Hres)|[(_ & Hres)
        |(student' & amt & due & Hcur' & _ & Hamt & _ & _ & _ & Hres)]]];
    cbv zeta in Hres; rewrite Hres in Hpdf |- *; cbn [fst snd] in Hpdf |- *.
  - injection Hpdf as ->. by destruct (Hbox pdf).
  - discriminate Hpdf.
  - discriminate Hpdf.
  - rewrite Hcur in Hcur'. injection Hcur' as <-.
    destruct amt as [a|]; cbn [sql_real] in Hpdf |- *; [|discriminate Hpdf].
    injection Hpdf as <-.
    cbn [fst snd receipt_student receipt_payment receipt_total_paid receipt_remaining
         Payment.amount_paid].
    fold sid.
    split_and!; [done|by exists (Py.Num a)|apply get_last_payment_newest|done..|].
    intros Hrow. by rewrite (get_total_due_found sid _ student).
Qed.

(** X9. The payment handler does not read the id typed in the payment tab:
    the payment goes to the student fetched last, whatever the id field
    holds when the button is pressed. *)
Theorem record_payment_ignores_p_sid float now w db sid' :
  let w2 := MainWindow.mk (MainWindow.input_sid w) (MainWindow.input_name w)
              (MainWindow.input_class w) (MainWindow.input_total_fee w)
              (MainWindow.photo_path w) sid' (MainWindow.p_amount w)
              (MainWindow.p_mode w) (MainWindow.current_student w) in
  (MainWindow.record_payment_and_receipt float now w2 db).1.1
  = (MainWindow.record_payment_and_receipt float now w db).1.1
  ∧ (MainWindow.record_payment_and_receipt float now w2 db).2
    = (MainWindow.record_payment_and_receipt float now w db).2.
Proof.
  intros w2. subst w2. unfold MainWindow.record_payment_and_receipt.
  cbn [MainWindow.current_student MainWindow.p_amount MainWindow.p_mode].
  destruct (MainWindow.current_student w) as [student|]; [|done].
  destruct (negb _); [done|].
  destruct (float _) as [amt|]; [|done].
  destruct (get_total_due _ db) as [due|]; [|done].
  destruct (Py.gt _ _); [done|].
  destruct (add_payment_db _ _ _ _ db) as [[r|e] db']; [|done].
  destruct (get_last_payment _ db') as [payment|]; [|done].
  by destruct (generate_receipt_pdf _ _ _ _ db').
Qed.

(** X18. The payment handler turns down a click without a fetched student,
    with a fetched student and an amount field of white space only, and
    with an amount that is not a number, each with its own warning, and
    stores nothing. *)
Theorem record_payment_invalid_input float now w db :
  (MainWindow.current_student w = None →
   MainWindow.record_payment_and_receipt float now w db
   = (MainWindow.Shown [MainWindow.WarnNoStudent], w, db))
  ∧ (is_Some (MainWindow.current_student w) →
     blank (MainWindow.p_amount w) = true →
     MainWindow.record_payment_and_receipt float now w db
     = (MainWindow.Shown [MainWindow.WarnEnterAmount], w, db))
  ∧ (is_Some (MainWindow.current_student w) →
     Py.truthy (Py.strip (MainWindow.p_amount w)) = true →
     float (Py.strip (MainWindow.p_amount w)) = None →
     MainWindow.record_payment_and_receipt float now w db
     = (MainWindow.Shown [MainWindow.WarnNumericAmount], w, db)).
Proof.
  unfold MainWindow.record_payment_and_receipt. split_and!.
  - by intros ->.
  - intros [student ->] Hblank. rewrite (strip_blank _ Hblank). done.
  - intros [student ->] -> Hnone. simpl. by rewrite Hnone.
Qed.


(** X20. An amount that is NaN is not above any due amount, so it passes
    the check.  The row is stored without an amount under the next receipt
    number, and then the receipt cannot print the amount: a TypeError
    leaves the handler with no box shown, the window as it was, and the row
    in [payments] as the last payment of the student.  The total paid and
    the due amount of the student are as before. *)
Theorem nan_amount_stored float now w db student due :
  MainWindow.current_student w = Some student →
  Py.truthy (Py.strip (MainWindow.p_amount w)) = true →
  float (Py.strip (MainWindow.p_amount w)) = Some Py.NaN →
  get_total_due (Student.student_id student) db = Some due →
  last_rowid db < MAX_ROWID →
  let sid := Student.student_id student in
  let row := Payment.mk (last_rowid db + 1) sid None now (MainWindow.p_mode w) in
  let db' := mkDB (students db) (payments db ++ [row]) (last_rowid db + 1) in
  MainWindow.record_payment_and_receipt float now w db
  = (MainWindow.Raised [] Py.TypeError, w, db')
  ∧ get_last_payment sid db' = Some row
  ∧ get_total_paid sid db' = get_total_paid sid db
  ∧ get_total_due sid db' = Some due.
Proof.
  intros Hcur Htext Hamt Hdue Hroom sid row db'.
  destruct (get_total_null_row sid (last_rowid db + 1) sid now (MainWindow.p_mode w) db
              (last_rowid db + 1)) as [Hpaid Hsame].
  subst row db' sid.
  split_and!; [|apply get_last_payment_newest|exact Hpaid|by rewrite Hsame].
  unfold MainWindow.record_payment_and_receipt.
  rewrite Hcur, Htext. cbn [negb]. rewrite Hamt, Hdue.
  cbn [Py.gt]. rewrite add_payment_db_returns by done. cbn [sql_real].
  by rewrite get_last_payment_newest.
Qed.

(** ** The student form *)

(** [save_student], case by case. *)
Lemma save_student_cases float splitext copy2 w db :
  let res := MainWindow.save_student float splitext copy2 w db in
  let sid := Py.strip (MainWindow.input_sid w) in
  let name := Py.strip (MainWindow.input_name w) in
  let sclass := Py.strip (MainWindow.input_class w) in
  let fee_text := Py.strip (MainWindow.input_total_fee w) in
  ((Py.truthy sid = false ∨ Py.truthy name = false ∨ Py.truthy fee_text = false)
   ∧ res = (MainWindow.Shown [MainWindow.WarnRequired], w, db))
  ∨ (float fee_text = None
     ∧ res = (MainWindow.Shown [MainWindow.WarnNumericFee], w, db))
  ∨ (∃ boxes, float fee_text = Some Py.NaN
              ∧ res = (MainWindow.Raised boxes Py.IntegrityError, w, db))
  ∨ ∃ fee boxes photo_dest,
      Py.truthy sid = true ∧ Py.truthy name = true ∧ Py.truthy fee_text = true
      ∧ float fee_text = Some (Py.Num fee)
      ∧ (boxes = [] ∨ boxes = [MainWindow.WarnPhotoError])
      ∧ photo_dest
        = match MainWindow.photo_path w with
          | None => None
          | Some path =>
              if Py.truthy path
                 && copy2 path (Py.path_join MainWindow.PHOTO_DIR (sid +:+ splitext path))
              then Some (Py.path_join MainWindow.PHOTO_DIR (sid +:+ splitext path))
              else None
          end
      ∧ res =
        (MainWindow.Shown (boxes ++ [MainWindow.InfoSaved name sid]),
         MainWindow.mk "" "" "" "" None (MainWindow.p_sid w) (MainWindow.p_amount w)
           (MainWindow.p_mode w) (MainWindow.current_student w),
         mkDB (<[sid := Student.mk sid name sclass fee photo_dest]> (students db))
           (payments db) (sqlite_sequence db)).
Proof.
  intros res sid name sclass fee_text. subst res.
  unfold MainWindow.save_student. fold sid name sclass fee_text.
  destruct (Py.truthy sid) eqn:Hsid; [|left; split; [by left|done]].
  destruct (Py.truthy name) eqn:Hname; [|left; split; [by right; left|done]].
  destruct (Py.truthy fee_text) eqn:Htext; [|left; split; [by right; right|done]].
  simpl. destruct (float fee_text) as [[fee|]|]; [| |right; left; done].
  - right; right; right. exists fee.
    destruct (MainWindow.photo_path w) as [path|];
      [|exists [], None; split_and!; try done; by left].
    destruct (Py.truthy path);
      [|exists [], None; split_and!; try done; by left]. simpl.
    destruct (copy2 path _).
    + eexists [], _. split_and!; try done. by left.
    + eexists [_], None. split_and!; try done. by right.
  - right; right; left.
    destruct (MainWindow.photo_path w) as [path|]; [|by exists []].
    destruct (Py.truthy path); [|by exists []].
    destruct (copy2 path _); by eexists.
Qed.

(** X10. A student form whose id, name or fee field holds nothing but white
    space, that of Unicode included, is turned down with the warning that
    the three are required, and nothing is stored. *)
Theorem save_student_blank_field float splitext copy2 w db :
  blank (MainWindow.input_sid w) = true
  ∨ blank (MainWindow.input_name w) = true
  ∨ blank (MainWindow.input_total_fee w) = true →
  MainWindow.save_student float splitext copy2 w db
  = (MainWindow.Shown [MainWindow.WarnRequired], w, db).
Proof.
  intros Hblank. unfold MainWindow.save_student.
  destruct Hblank as [H|[H|H]]; rewrite (strip_blank _ H); simpl;
    by rewrite ?orb_true_r.
Qed.

(** X11. [save_student] writes one row of [students] at most, the row of
    the id typed: the payments, the receipt counter, the rows of the other
    ids, the payment tab and the student fetched for payment are as before.
    Unless it reports the student as saved, the form and the database are
    as before. *)
Theorem save_student_frame float splitext copy2 w db :
  let res := MainWindow.save_student float splitext copy2 w db in
  payments res.2 = payments db
  ∧ sqlite_sequence res.2 = sqlite_sequence db
  ∧ (∀ sid', sid' ≠ Py.strip (MainWindow.input_sid w) →
       get_student sid' res.2 = get_student sid' db)
  ∧ MainWindow.p_sid res.1.2 = MainWindow.p_sid w
  ∧ MainWindow.p_amount res.1.2 = MainWindow.p_amount w
  ∧ MainWindow.p_mode res.1.2 = MainWindow.p_mode w
  ∧ MainWindow.current_student res.1.2 = MainWindow.current_student w
  ∧ ((∀ boxes name sid,
        res.1.1 ≠ MainWindow.Shown (boxes ++ [MainWindow.InfoSaved name sid])) →
     res.1.2 = w ∧ res.2 = db).
Proof.
  intros res.
  destruct (save_student_cases float splitext copy2 w db)
    as [[_ Hres]|[[_ Hres]|[(boxes & _ & Hres)
        |(fee & boxes & photo & _ & _ & _ & _ & _ & _ & Hres)]]];
    fold res in Hres; rewrite Hres; cbn [fst snd]; split_and!; try done.
  - intros sid' Hne. unfold get_student. cbn [students].
    by rewrite lookup_insert_ne.
  - intros Hno. by destruct (Hno boxes (Py.strip (MainWindow.input_name w))
                               (Py.strip (MainWindow.input_sid w))).
Qed.



(** X13. A student that was just saved is found by the payment tab under
    the same id, white space around it aside: the row fetched is the row
    saved, and the due amount is the fee typed minus what was paid under
    the id. *)
Theorem save_then_fetch float splitext copy2 w db fee :
  let sid := Py.strip (MainWindow.input_sid w) in
  let name := Py.strip (MainWindow.input_name w) in
  let sclass := Py.strip (MainWindow.input_class w) in
  let saved := MainWindow.save_student float splitext copy2 w db in
  let fetched := MainWindow.fetch_student_for_payment saved.1.2 saved.2 in
  Py.truthy sid = true →
  Py.truthy name = true →
  Py.truthy (Py.strip (MainWindow.input_total_fee w)) = true →
  float (Py.strip (MainWindow.input_total_fee w)) = Some (Py.Num fee) →
  Py.strip (MainWindow.p_sid w) = sid →
  fetched.1.1 = MainWindow.Shown []
  ∧ fetched.2 = saved.2
  ∧ (∃ photo, MainWindow.current_student fetched.1.2
              = Some (Student.mk sid name sclass fee photo))
  ∧ get_total_due sid fetched.2 = Some (fee - get_total_paid sid db).
Proof.
  intros sid name sclass saved fetched Hsid Hname Htext Hfee Hpsid.
  destruct (save_student_cases float splitext copy2 w db)
    as [[Hempty _]|[[Hnone _]|[(boxes & Hnan & _)
        |(fee' & boxes & photo & _ & _ & _ & Hfee' & _ & _ & Hres)]]].
  - fold sid name in Hempty. destruct Hempty as [?|[?|?]]; congruence.
  - congruence.
  - congruence.
  - assert (fee' = fee) as -> by congruence.
    fold sid name sclass saved in Hres. subst fetched. rewrite Hres. cbn [fst snd].
    unfold MainWindow.fetch_student_for_payment. cbn [MainWindow.p_sid].
    rewrite Hpsid, Hsid. simpl. unfold get_student. cbn [students].
    rewrite lookup_insert_eq. cbn [fst snd MainWindow.current_student].
    split_and!; [done..|by exists photo|].
    rewrite (get_total_due_found sid _ (Student.mk sid name sclass fee photo)).
    + done.
    + apply lookup_insert_eq.
Qed.

(** ** Sessions *)

Lemma fetch_student_cases w db :
  let res := MainWindow.fetch_student_for_payment w db in
  res.2 = db
  ∧ (∃ boxes, res.1.1 = MainWindow.Shown boxes)
  ∧ (res.1.2 = w
     ∨ ∃ student,
         get_student (Py.strip (MainWindow.p_sid w)) db = Some student
         ∧ MainWindow.current_student res.1.2 = Some student).
Proof.
  unfold MainWindow.fetch_student_for_payment.
  destruct (negb _); [by eauto|].
  destruct (get_student _ db) as [student|]; simpl; by eauto 10.
Qed.

Section SessionFacts.

Variable float : string → option Py.float.
Variable splitext : string → string.
Variable copy2 : string → string → bool.

Local Abbreviation step := (Session.step float splitext copy2).
Local Abbreviation run := (Session.run float splitext copy2).

(** One event: what may have happened to the database. *)
Lemma step_db e w db :
  (step e w db).2 = db
  ∨ (∃ name cls fee photo,
       e = Session.ClickSave
       ∧ (step e w db).2
         = mkDB (<[Py.strip (MainWindow.input_sid w) :=
                     Student.mk (Py.strip (MainWindow.input_sid w)) name cls fee photo]>
                   (students db))
             (payments db) (sqlite_sequence db))
  ∨ (∃ now student amount,
       e = Session.ClickPay now
       ∧ MainWindow.current_student w = Some student
       ∧ last_rowid db < MAX_ROWID
       ∧ (step e w db).2
         = mkDB (students db)
             (payments db ++
              [Payment.mk (last_rowid db + 1) (Student.student_id student) amount now
                 (MainWindow.p_mode w)])
             (last_rowid db + 1)).
Proof.
  destruct e as [sid name cls fee|sid amount mode|path| | |now]; simpl;
    [by left..| | |].
  - destruct (save_student_cases float splitext copy2 w db)
      as [[_ ->]|[[_ ->]|[(boxes & _ & ->)
          |(fee & boxes & photo & _ & _ & _ & _ & _ & _ & ->)]]];
      [by left..|]. right. left. by eauto 10.
  - left. apply fetch_student_cases.
  - destruct (record_payment_cases float now w db)
      as [(box & _ & ->)|[(student & _ & _ & ->)|[(_ & ->)
          |(student & amt & due & ? & _ & _ & _ & _ & ? & Hres)]]];
      [by left..|].
    cbv zeta in Hres. rewrite Hres.
    right. right. exists now, student, (sql_real amt).
    split_and!; [done..|]. by destruct (sql_real amt).
Qed.

(** One event: the student fetched for payment. *)
Lemma step_current_student e w db student :
  MainWindow.current_student (step e w db).1.2 = Some student →
  MainWindow.current_student w = Some student
  ∨ (e = Session.ClickFetch ∧ ∃ sid, get_student sid db = Some student).
Proof.
  destruct e as [sid name cls fee|sid amount mode|path| | |now]; simpl;
    [by left..| | | |].
  - unfold MainWindow.browse_photo. destruct (Py.truthy path); by left.
  - destruct (save_student_cases float splitext copy2 w db)
      as [[_ ->]|[[_ ->]|[(boxes & _ & ->)
          |(fee & boxes & photo & _ & _ & _ & _ & _ & _ & ->)]]];
      by left.
  - destruct (fetch_student_cases w db) as (_ & _ & [->|(student' & Hget & ->)]);
      [by left|]. intros [= ->]. right. by eauto.
  - destruct (record_payment_cases float now w db)
      as [(box & _ & ->)|[(student' & _ & _ & ->)|[(_ & ->)
          |(student' & amt & due & _ & _ & _ & _ & _ & _ & Hres)]]];
      [by left..|].
    cbv zeta in Hres. rewrite Hres. destruct (sql_real amt); [done|by left].
Qed.

Lemma step_students_keyed e w db :
  students_keyed db → students_keyed (step e w db).2.
Proof.
  intros Hkeyed.
  destruct (step_db e w db)
    as [->|[(name & cls & fee & photo & _ & ->)|(now & st & amt & _ & _ & _ & ->)]];
    [done| |done].
  intros sid row. cbn [students].
  destruct (decide (Py.strip (MainWindow.input_sid w) = sid)) as [<-|Hne].
  - rewrite lookup_insert_eq. by intros [= <-].
  - rewrite lookup_insert_ne by done. apply Hkeyed.
Qed.

Lemma step_students_grow e w db sid :
  is_Some (students db !! sid) → is_Some (students (step e w db).2 !! sid).
Proof.
  intros Hsome.
  destruct (step_db e w db)
    as [->|[(name & cls & fee & photo & _ & ->)|(now & st & amt & _ & _ & _ & ->)]];
    [done| |done].
  cbn [students]. rewrite lookup_insert_is_Some.
  destruct (decide (Py.strip (MainWindow.input_sid w) = sid)); by eauto.
Qed.

Lemma step_fetched_known e w db :
  students_keyed db → fetched_known w db →
  fetched_known (step e w db).1.2 (step e w db).2.
Proof.
  intros Hkeyed Hknown student Hcur. apply step_students_grow.
  apply step_current_student in Hcur as [Hcur|(_ & sid & Hget)].
  - by apply Hknown.
  - rewrite (Hkeyed sid student Hget). by eexists.
Qed.

(** One event: a TypeError is the receipt of a payment without amount. *)
Lemma step_type_error e w db boxes :
  fetched_known w db →
  (step e w db).1.1 = MainWindow.Raised boxes Py.TypeError →
  float (Py.strip (MainWindow.p_amount w)) = Some Py.NaN
  ∧ (step e w db).1.2 = w
  ∧ ∃ now student,
      e = Session.ClickPay now
      ∧ MainWindow.current_student w = Some student
      ∧ payments (step e w db).2
        = payments db ++
          [Payment.mk (last_rowid db + 1) (Student.student_id student) None now
             (MainWindow.p_mode w)].
Proof.
  intros Hknown.
  destruct e as [sid name cls fee|sid amount mode|path| | |now]; simpl; [done..| | |].
  - destruct (save_student_cases float splitext copy2 w db)
      as [[_ ->]|[[_ ->]|[(boxes' & _ & ->)
          |(fee & boxes' & photo & _ & _ & _ & _ & _ & _ & ->)]]]; done.
  - destruct (fetch_student_cases w db) as (_ & [boxes' ->] & _). done.
  - destruct (record_payment_cases float now w db)
      as [(box & _ & ->)|[(student & Hcur & Hnone & ->)|[(_ & ->)
          |(student & amt & due & Hcur & _ & Hamt & _ & _ & _ & Hres)]]];
      [done| |done|].
    + apply Hknown in Hcur as [row Hrow]. congruence.
    + cbv zeta in Hres. rewrite Hres.
      destruct amt as [a|]; cbn [sql_real fst snd payments]; [done|].
      intros _. split_and!; [done..|]. by exists now, student.
Qed.

(** One event: an IntegrityError is the save of a fee that is NaN. *)
Lemma step_integrity_error e w db boxes :
  (step e w db).1.1 = MainWindow.Raised boxes Py.IntegrityError →
  e = Session.ClickSave
  ∧ float (Py.strip (MainWindow.input_total_fee w)) = Some Py.NaN
  ∧ (step e w db).1.2 = w
  ∧ (step e w db).2 = db.
Proof.
  destruct e as [sid name cls fee|sid amount mode|path| | |now]; simpl; [done..| | |].
  - destruct (save_student_cases float splitext copy2 w db)
      as [[_ ->]|[[_ ->]|[(boxes' & Hnan & ->)
          |(fee & boxes' & photo & _ & _ & _ & _ & _ & _ & ->)]]]; done.
  - destruct (fetch_student_cases w db) as (_ & [boxes' ->] & _). done.
  - destruct (record_payment_cases float now w db)
      as [(box & _ & ->)|[(student & _ & _ & ->)|[(_ & ->)
          |(student & amt & due & _ & _ & _ & _ & _ & _ & Hres)]]];
      [done..|].
    cbv zeta in Hres. rewrite Hres. by destruct (sql_real amt).
Qed.



Lemma run_cons e events w db :
  run (e :: events) w db
  = ((step e w db).1.1 :: (run events (step e w db).1.2 (step e w db).2).1.1,
     (run events (step e w db).1.2 (step e w db).2).1.2,
     (run events (step e w db).1.2 (step e w db).2).2).
Proof.
  cbn [Session.run]. destruct (step e w db) as [[o w1] db1]. cbn [fst snd].
  by destruct (run events w1 db1) as [[os w2] db2].
Qed.

Lemma run_invariants events w db :
  students_keyed db → fetched_known w db →
  students_keyed (run events w db).2
  ∧ fetched_known (run events w db).1.2 (run events w db).2.
Proof.
  revert w db. induction events as [|e events IH]; intros w db Hkeyed Hknown; [done|].
  rewrite run_cons. cbn [fst snd].
  apply IH; [by apply step_students_keyed|by apply step_fetched_known].
Qed.


End SessionFacts.

(** X14. At any point of a session that starts with no student fetched, or
    with a fetched student that is in [students], on a database whose rows
    are stored under their own ids, the rows are stored under their own ids
    and the student fetched is in [students], so the fetched student has a
    due amount: the amount is never compared with a missing one.  A
    TypeError leaves a handler only when the amount typed for a payment is
    NaN: the window is as before and the payment is stored without amount.
    An IntegrityError leaves a handler only when the fee typed for a student
    is NaN: the window and the database are as before. *)
Theorem session_exceptions float splitext copy2 events e w db :
  students_keyed db →
  fetched_known w db →
  let mid := Session.run float splitext copy2 events w db in
  let res := Session.step float splitext copy2 e mid.1.2 mid.2 in
  students_keyed mid.2
  ∧ fetched_known mid.1.2 mid.2
  ∧ (∀ student, MainWindow.current_student mid.1.2 = Some student →
       is_Some (get_total_due (Student.student_id student) mid.2))
  ∧ (∀ boxes, res.1.1 = MainWindow.Raised boxes Py.TypeError →
       float (Py.strip (MainWindow.p_amount mid.1.2)) = Some Py.NaN
       ∧ res.1.2 = mid.1.2
       ∧ ∃ now student,
           e = Session.ClickPay now
           ∧ MainWindow.current_student mid.1.2 = Some student
           ∧ payments res.2
             = payments mid.2 ++
               [Payment.mk (last_rowid mid.2 + 1) (Student.student_id student) None now
                  (MainWindow.p_mode mid.1.2)])
  ∧ (∀ boxes, res.1.1 = MainWindow.Raised boxes Py.IntegrityError →
       e = Session.ClickSave
       ∧ float (Py.strip (MainWindow.input_total_fee mid.1.2)) = Some Py.NaN
       ∧ res.1.2 = mid.1.2
       ∧ res.2 = mid.2).
Proof.
  intros Hkeyed Hknown mid res.
  destruct (run_invariants float splitext copy2 events w db Hkeyed Hknown)
    as [Hkeyed' Hknown'].
  fold mid in Hkeyed', Hknown'. split_and!; [done..| | |].
  - intros student Hcur. apply Hknown' in Hcur as [row Hrow].
    rewrite (get_total_due_found _ _ row Hrow). by eexists.
  - intros boxes. by apply step_type_error.
  - intros boxes. apply step_integrity_error.
Qed.


(** ** The receipt file *)

Lemma string_app_cons a s t : String a s +:+ t = String a (s +:+ t).
Proof. done. Qed.

Lemma string_app_nil_l t : "" +:+ t = t.
Proof. done. Qed.

Lemma string_app_length s t :
  String.length (s +:+ t) = (String.length s + String.length t)%nat.
Proof. induction s as [|a s IH]; [done|]. rewrite string_app_cons. simpl. by rewrite IH. Qed.

Lemma string_app_inj_r s1 s2 t : s1 +:+ t = s2 +:+ t → s1 = s2.
Proof.
  revert s2. induction s1 as [|a s1 IH]; intros [|b s2] Heq; [done| | |].
  - apply (f_equal String.length) in Heq.
    rewrite !string_app_length in Heq. simpl in Heq. lia.
  - apply (f_equal String.length) in Heq.
    rewrite !string_app_length in Heq. simpl in Heq. lia.
  - rewrite !string_app_cons in Heq. injection Heq as -> Heq. f_equal. by apply IH.
Qed.

(** A text that begins with something else than an underscore and goes on
    without one has none. *)
Lemma no_underscore_cons c s :
  (∀ b, String c s ≠ "_" +:+ b) →
  (∀ a b, s ≠ a +:+ "_" +:+ b) →
  ∀ a b, String c s ≠ a +:+ "_" +:+ b.
Proof.
  intros Hc Hs [|c' a] b; [apply Hc|].
  rewrite string_app_cons. intros [= -> Heq]. by apply (Hs a b).
Qed.

Lemma no_underscore_nil a b : "" ≠ a +:+ "_" +:+ b.
Proof. by destruct a. Qed.

Lemma no_underscore_pdf a b : ".pdf" ≠ a +:+ "_" +:+ b.
Proof.
  revert a b. do 4 (apply no_underscore_cons; [intros b Heq; cbv in Heq; discriminate Heq|]).
  apply no_underscore_nil.
Qed.

Lemma pretty_N_go_no_underscore x s :
  (∀ a b, s ≠ a +:+ "_" +:+ b) → ∀ a b, pretty_N_go x s ≠ a +:+ "_" +:+ b.
Proof.
  revert s. induction (N.lt_wf_0 x) as [x _ IH]; intros s Hs.
  destruct (decide (x = 0)%N) as [->|Hpos]; [by rewrite pretty_N_go_0|].
  rewrite pretty_N_go_step by lia. apply IH; [apply N.div_lt; lia|].
  apply no_underscore_cons; [|done].
  intros b Heq. rewrite string_app_cons in Heq. injection Heq as Heq _.
  unfold pretty_N_char in Heq. by repeat case_match.
Qed.

Lemma pretty_N_go_app x s t : pretty_N_go x s +:+ t = pretty_N_go x (s +:+ t).
Proof.
  revert s. induction (N.lt_wf_0 x) as [x _ IH]; intros s.
  destruct (decide (x = 0)%N) as [->|Hpos]; [by rewrite !pretty_N_go_0|].
  rewrite (pretty_N_go_step x s), (pretty_N_go_step x (s +:+ t)) by lia.
  rewrite IH by (apply N.div_lt; lia). reflexivity.
Qed.

Lemma pretty_positive_pdf_no_underscore (x : positive) a b :
  pretty x +:+ ".pdf" ≠ a +:+ "_" +:+ b.
Proof.
  unfold pretty, pretty_positive, pretty, pretty_N.
  rewrite decide_False by done. rewrite pretty_N_go_app.
  apply pretty_N_go_no_underscore. apply no_underscore_pdf.
Qed.

(** The decimal text of a number followed by the extension holds no
    underscore. *)
Lemma pretty_Z_pdf_no_underscore (r : Z) a b :
  pretty r +:+ ".pdf" ≠ a +:+ "_" +:+ b.
Proof.
  destruct r as [|x|x]; unfold pretty, pretty_Z.
  - revert a b. apply no_underscore_cons; [intros b Heq; cbv in Heq; discriminate Heq|].
    apply no_underscore_pdf.
  - apply pretty_positive_pdf_no_underscore.
  - revert a b. change (("-" +:+ pretty x) +:+ ".pdf")
      with (String (Ascii.ascii_of_nat 45) (pretty x +:+ ".pdf")).
    apply no_underscore_cons; [intros b Heq; cbv in Heq; discriminate Heq|].
    apply pretty_positive_pdf_no_underscore.
Qed.

(** Where the last underscore stands, the text splits in one way only. *)
Lemma app_underscore_inj s1 s2 t1 t2 :
  (∀ a b, t1 ≠ a +:+ "_" +:+ b) →
  (∀ a b, t2 ≠ a +:+ "_" +:+ b) →
  s1 +:+ "_" +:+ t1 = s2 +:+ "_" +:+ t2 →
  s1 = s2 ∧ t1 = t2.
Proof.
  intros H1 H2. revert s2. induction s1 as [|a s1 IH]; intros [|b s2] Heq;
    rewrite ?string_app_cons, ?string_app_nil_l in Heq.
  - by injection Heq as ->.
  - injection Heq as _ Heq. destruct (H1 s2 t2 Heq).
  - injection Heq as _ Heq. symmetry in Heq. destruct (H2 s1 t1 Heq).
  - injection Heq as -> Heq.
    destruct (IH s2) as [-> ->]; [by rewrite ?string_app_cons, ?string_app_nil_l|done].
Qed.

(** X17. Two receipts are written to the same file only when they are for
    the same student id and carry the same receipt number.  As receipt
    numbers are never given twice, no receipt file is overwritten by the
    receipt of another payment. *)
Theorem pdf_filename_inj student1 payment1 student2 payment2 :
  pdf_filename student1 payment1 = pdf_filename student2 payment2
  ↔ Student.student_id student1 = Student.student_id student2
    ∧ Payment.receipt_no payment1 = Payment.receipt_no payment2.
Proof.
  unfold pdf_filename. split; [|by intros [-> ->]].
  intros Heq. do 3 apply (inj (String.app _)) in Heq.
  apply app_underscore_inj in Heq as [Hsid Hno];
    [|apply pretty_Z_pdf_no_underscore..].
  split; [done|]. apply string_app_inj_r in Hno. by apply (inj pretty).
Qed.

(** * More of the worked ledger *)

Import Walkthrough.

Example pdf_filename_s1 :
  pdf_filename s1 (Payment.mk 12 "S1" (Some 40000) now1 "Cash") = "receipts/Receipt_S1_12.pdf".
Proof. vm_compute. reflexivity. Qed.

Example clicks_outcomes :
  (Session.run float_of_digits no_ext copy_ok clicks MainWindow.initial new_db).1.1
  = [MainWindow.Shown [];
     MainWindow.Shown [MainWindow.InfoSaved "Third Student" "S3"];
     MainWindow.Shown []; MainWindow.Shown [];
     MainWindow.Shown
       [MainWindow.InfoSuccess
          (mkReceipt (Student.mk "S3" "Third Student" "BA" 20000 None)
             (Payment.mk 1 "S3" (Some 15000) now1 "Cash") 15000 5000)];
     MainWindow.Shown []; MainWindow.Shown [MainWindow.WarnNoStudent];
     MainWindow.Shown []; MainWindow.Shown [MainWindow.WarnInvalidPayment 5000]].
Proof. vm_compute. reflexivity. Qed.

(** White space of Unicode around an id is stripped as the blank is. *)
Example strip_unicode :
  Py.strip (nbsp +:+ " S1" +:+ em_space +:+ nbsp) = "S1"
  ∧ blank (nbsp +:+ " " +:+ em_space) = true.
Proof. split; vm_compute; reflexivity. Qed.

(** Lowering the fee of S1 to 300.00 after 400.00 was paid leaves -100.00 due. *)
Lemma add_student_db_changes_due_witness :
  get_total_paid "S1" db_400 = 40000
  ∧ get_total_due "S1"
      (add_student_db "S1" "First Student" "BSc" (Py.Num 30000) None db_400).2
    = Some (-10000)
  ∧ ∃ due, get_total_due "S1"
             (add_student_db "S1" "First Student" "BSc" (Py.Num 30000) None db_400).2
           = Some due ∧ due < 0.
Proof.
  destruct (add_student_db_changes_due "S1" "First Student" "BSc" 30000 None db_400)
    as (Hdue & Hneg & _).
  split_and!; [vm_compute; reflexivity|exact Hdue|].
  apply Hneg. vm_compute; reflexivity.
Defined.

Lemma add_payment_db_isolated_witness :
  add_payment_db "S1" (Py.Num 60000) now2 "UPI" db_400 = (Py.Return 2, db_1000)
  ∧ where_student_id "S1" (payments db_1000)
    = where_student_id "S1" (payments db_400) ++ [Payment.mk 2 "S1" (Some 60000) now2 "UPI"]
  ∧ get_total_paid "S0" db_1000 = get_total_paid "S0" db_400
  ∧ get_total_due "S0" db_1000 = get_total_due "S0" db_400.
Proof.
  destruct (add_payment_db_isolated "S1" (Py.Num 60000) now2 "UPI" db_400 2 db_1000)
    as (Hrows & _ & Hother); [vm_compute; reflexivity|].
  destruct (Hother "S0") as (_ & Hpaid & Hdue); [discriminate|].
  split_and!; [vm_compute; reflexivity|exact Hrows|exact Hpaid|exact Hdue].
Defined.

Lemma orphan_payment_stored_witness :
  students db_start !! "S9" = None
  ∧ add_payment_db "S9" (Py.Num 2500) now1 "Cash" db_start = (Py.Return 1, db_orphan)
  ∧ get_last_payment "S9" db_orphan = Some (Payment.mk 1 "S9" (Some 2500) now1 "Cash")
  ∧ get_total_due "S9" db_orphan = None
  ∧ MainWindow.search_student " S9" db_orphan = MainWindow.SearchNotFound.
Proof.
  destruct (orphan_payment_stored "S9" (Py.Num 2500) now1 "Cash" db_start)
    as (Hadd & Hlast & Hdue & Hsearch); [vm_compute; reflexivity..|].
  split_and!; [vm_compute; reflexivity|exact Hadd|exact Hlast|exact Hdue|].
  destruct (Hsearch " S9") as [Hwarn|Hnot]; [vm_compute; reflexivity| |exact Hnot].
  vm_compute in Hwarn. discriminate Hwarn.
Defined.

Lemma search_student_shown_witness :
  MainWindow.search_student " S1 " db_1000
  = MainWindow.SearchShown s1 100000 0
      [Payment.mk 2 "S1" (Some 60000) now2 "UPI"; Payment.mk 1 "S1" (Some 40000) now1 "Cash"]
  ∧ get_student (Py.strip " S1 ") db_1000 = Some s1
  ∧ 100000 = get_total_paid "S1" db_1000
  ∧ get_total_due (Py.strip " S1 ") db_1000 = Some 0
  ∧ head [Payment.mk 2 "S1" (Some 60000) now2 "UPI";
          Payment.mk 1 "S1" (Some 40000) now1 "Cash"]
    = get_last_payment "S1" db_1000.
Proof.
  split; [vm_compute; reflexivity|].
  destruct (search_student_shown " S1 " db_1000 s1 100000 0
              [Payment.mk 2 "S1" (Some 60000) now2 "UPI";
               Payment.mk 1 "S1" (Some 40000) now1 "Cash"])
    as (Hget & Hpaid & _ & Hdue & _ & _ & _ & Hhead); [vm_compute; reflexivity|].
  split_and!; [exact Hget|exact Hpaid| |exact Hhead].
  apply Hdue. vm_compute; reflexivity.
Defined.

Lemma receipt_shows_balance_witness :
  (MainWindow.record_payment_and_receipt float_of_digits now2 (paying s1 "600" "UPI") db_400).1.1
  = MainWindow.Shown
      [MainWindow.InfoSuccess
         (mkReceipt s1 (Payment.mk 2 "S1" (Some 60000) now2 "UPI") 100000 0)]
  ∧ get_last_payment "S1"
      (MainWindow.record_payment_and_receipt float_of_digits now2
         (paying s1 "600" "UPI") db_400).2
    = Some (Payment.mk 2 "S1" (Some 60000) now2 "UPI")
  ∧ get_total_due "S1"
      (MainWindow.record_payment_and_receipt float_of_digits now2
         (paying s1 "600" "UPI") db_400).2
    = Some 0.
Proof.
  split; [vm_compute; reflexivity|].
  destruct (receipt_shows_balance float_of_digits now2 (paying s1 "600" "UPI") db_400
              (mkReceipt s1 (Payment.mk 2 "S1" (Some 60000) now2 "UPI") 100000 0) s1)
    as (_ & _ & Hlast & _ & _ & Hafter); [vm_compute; reflexivity..|].
  split; [exact Hlast|]. apply Hafter. vm_compute; reflexivity.
Defined.

(** No student fetched; an amount field that holds a no-break space only;
    an amount that is no number. *)
Lemma record_payment_invalid_input_witness :
  MainWindow.record_payment_and_receipt float_of_digits now1 (paid "Cash") db_start
  = (MainWindow.Shown [MainWindow.WarnNoStudent], paid "Cash", db_start)
  ∧ MainWindow.record_payment_and_receipt float_of_digits now1 (paying s1 nbsp "Cash") db_start
    = (MainWindow.Shown [MainWindow.WarnEnterAmount], paying s1 nbsp "Cash", db_start)
  ∧ MainWindow.record_payment_and_receipt float_of_digits now1 (paying s1 "4x" "Cash") db_start
    = (MainWindow.Shown [MainWindow.WarnNumericAmount], paying s1 "4x" "Cash", db_start).
Proof.
  split_and!.
  - apply (record_payment_invalid_input float_of_digits now1 (paid "Cash") db_start).
    reflexivity.
  - apply (record_payment_invalid_input float_of_digits now1 (paying s1 nbsp "Cash") db_start);
      [by exists s1|vm_compute; reflexivity].
  - apply (record_payment_invalid_input float_of_digits now1 (paying s1 "4x" "Cash") db_start);
      [by exists s1|vm_compute; reflexivity..].
Defined.


(** The text nan typed as the amount for S1. *)
Lemma nan_amount_stored_witness :
  float_of_digits (Py.strip "nan") = Some Py.NaN
  ∧ MainWindow.record_payment_and_receipt float_of_digits now1 (paying s1 "nan" "Cash") db_start
    = (MainWindow.Raised [] Py.TypeError, paying s1 "nan" "Cash",
       mkDB (students db_start)
         (payments db_start ++ [Payment.mk (last_rowid db_start + 1) "S1" None now1 "Cash"])
         (last_rowid db_start + 1))
  ∧ last_rowid db_start + 1 = 1
  ∧ get_total_due "S1"
      (mkDB (students db_start)
         (payments db_start ++ [Payment.mk (last_rowid db_start + 1) "S1" None now1 "Cash"])
         (last_rowid db_start + 1))
    = Some 100000.
Proof.
  split; [vm_compute; reflexivity|].
  destruct (nan_amount_stored float_of_digits now1 (paying s1 "nan" "Cash") db_start s1 100000)
    as (Hres & _ & _ & Hdue); [vm_compute; reflexivity..| |].
  - unfold MAX_ROWID. vm_compute. reflexivity.
  - split_and!; [exact Hres|vm_compute; reflexivity|exact Hdue].
Defined.

(** An id field that holds a no-break space and an em space only. *)
Lemma save_student_blank_field_witness :
  blank (nbsp +:+ em_space) = true
  ∧ MainWindow.save_student float_of_digits no_ext copy_ok
      (entering (nbsp +:+ em_space) "Second Student" "BA" "100") db_start
    = (MainWindow.Shown [MainWindow.WarnRequired],
       entering (nbsp +:+ em_space) "Second Student" "BA" "100", db_start).
Proof.
  split; [vm_compute; reflexivity|].
  apply (save_student_blank_field float_of_digits no_ext copy_ok
           (entering (nbsp +:+ em_space) "Second Student" "BA" "100") db_start).
  left. vm_compute; reflexivity.
Defined.


Lemma save_then_fetch_witness :
  (MainWindow.fetch_student_for_payment
     (MainWindow.save_student float_of_digits photo_ext copy_ok photo_form db_start).1.2
     (MainWindow.save_student float_of_digits photo_ext copy_ok photo_form db_start).2).1.1
  = MainWindow.Shown []
  ∧ ∃ photo,
      MainWindow.current_student
        (MainWindow.fetch_student_for_payment
           (MainWindow.save_student float_of_digits photo_ext copy_ok photo_form db_start).1.2
           (MainWindow.save_student float_of_digits photo_ext copy_ok photo_form db_start).2).1.2
      = Some (Student.mk (Py.strip " S2 ") (Py.strip "Second Student") (Py.strip "") 150000 photo).
Proof.
  destruct (save_then_fetch float_of_digits photo_ext copy_ok photo_form db_start 150000)
    as (Hshown & _ & Hrow & _); [vm_compute; reflexivity..|].
  split; [exact Hshown|exact Hrow].
Defined.

Lemma new_db_keyed : students_keyed new_db.
Proof. intros sid row Hrow. simpl in Hrow. by rewrite lookup_empty in Hrow. Qed.

Lemma db_start_keyed : students_keyed db_start.
Proof.
  intros sid row. unfold db_start. rewrite !add_student_db_Num. cbn [snd students].
  unfold new_db. cbn [students].
  destruct (decide (sid = "S0")) as [->|H0];
    [rewrite lookup_insert_eq; by intros [= <-]|].
  rewrite lookup_insert_ne by done.
  destruct (decide (sid = "S1")) as [->|H1];
    [rewrite lookup_insert_eq; by intros [= <-]|].
  rewrite lookup_insert_ne by done. by rewrite lookup_empty.
Qed.

Lemma initial_fetched_known db : fetched_known MainWindow.initial db.
Proof. intros student Hcur. discriminate Hcur. Qed.

(** After the text nan was typed as the amount and S1 fetched, the click on
    the payment button ends in a TypeError with the payment stored; after
    the text nan was typed as the fee, the click on the save button ends in
    an IntegrityError with nothing stored. *)
Lemma session_exceptions_witness :
  (Session.step float_of_digits no_ext copy_ok (Session.ClickPay now1)
     (Session.run float_of_digits no_ext copy_ok nan_clicks MainWindow.initial db_start).1.2
     (Session.run float_of_digits no_ext copy_ok nan_clicks MainWindow.initial db_start).2).1.1
  = MainWindow.Raised [] Py.TypeError
  ∧ (∃ now student,
       Session.ClickPay now1 = Session.ClickPay now
       ∧ MainWindow.current_student
           (Session.run float_of_digits no_ext copy_ok nan_clicks MainWindow.initial
              db_start).1.2
         = Some student
       ∧ payments
           (Session.step float_of_digits no_ext copy_ok (Session.ClickPay now1)
              (Session.run float_of_digits no_ext copy_ok nan_clicks MainWindow.initial
                 db_start).1.2
              (Session.run float_of_digits no_ext copy_ok nan_clicks MainWindow.initial
                 db_start).2).2
         = payments
             (Session.run float_of_digits no_ext copy_ok nan_clicks MainWindow.initial
                db_start).2 ++
           [Payment.mk
              (last_rowid
                 (Session.run float_of_digits no_ext copy_ok nan_clicks MainWindow.initial
                    db_start).2 + 1)
              (Student.student_id student) None now
              (MainWindow.p_mode
                 (Session.run float_of_digits no_ext copy_ok nan_clicks MainWindow.initial
                    db_start).1.2)])
  ∧ (Session.step float_of_digits no_ext copy_ok Session.ClickSave
       (Session.run float_of_digits no_ext copy_ok nan_fee_clicks MainWindow.initial
          db_start).1.2
       (Session.run float_of_digits no_ext copy_ok nan_fee_clicks MainWindow.initial
          db_start).2).2
    = (Session.run float_of_digits no_ext copy_ok nan_fee_clicks MainWindow.initial
         db_start).2.
Proof.
  split; [vm_compute; reflexivity|].
  destruct (session_exceptions float_of_digits no_ext copy_ok nan_clicks
              (Session.ClickPay now1) MainWindow.initial db_start db_start_keyed
              (initial_fetched_known db_start))
    as (_ & _ & _ & Htype & _).
  destruct (session_exceptions float_of_digits no_ext copy_ok nan_fee_clicks
              Session.ClickSave MainWindow.initial db_start db_start_keyed
              (initial_fetched_known db_start))
    as (_ & _ & _ & _ & Hintegrity).
  split.
  - destruct (Htype []) as (_ & _ & Hrow); [vm_compute; reflexivity|]. exact Hrow.
  - destruct (Hintegrity []) as (_ & _ & _ & Hdb); [vm_compute; reflexivity|]. exact Hdb.
Defined.
